(** * recentrifuge/generic.py: a shallow embedding of [GenericFormat] and
    [read_generic_output], and the properties of its specification.

    Conventions of the embedding.
    - Python [str] values are Rocq [string]s (one [ascii] per character);
      [Id] is [NewType('Id', str)], hence the identity on strings.
    - Python [int] values are [Z].  [Score] values (Python [float]s) are
      exact rationals [Q]; floating-point rounding is not modelled.
    - Raised exceptions are the [Raise] branch of [result]; the scan runs in
      a state-and-exception monad whose state survives a raise, as Python's
      local variables survive a caught exception.
    - [generic.py] reads three names it neither defines nor imports:
      [UNCLASSIFIED] and [K_MER_SIZE] (module globals) and [scoring] (not a
      parameter of [read_generic_output]).  Their lookup is a field of
      [Globals]: [None] is an unbound name, whose lookup raises [NameError];
      [generic_globals] is the binding of the module as it is shipped. *)

From Stdlib Require Import String Ascii ZArith QArith List Lia.
From stdpp Require Import base gmap strings list sorting.

Import ListNotations.
Local Open Scope Z_scope.

(* ------------------------------------------------------------------ *)
(** ** Exceptions and the result type *)

Inductive PyExc :=
| KeyError
| ValueError
| IndexError
| ZeroDivisionError
| StatisticsError
| NameError (name : string)
(** [Exception('Unsupported file format. Aborting.')] (header check) *)
| ErrUnsupportedFormat
(** [Exception(... 'Cannot read any sequence from ...')] *)
| ErrNoSequenceRead
(** [Exception(... 'No sequence passed the filter!')] *)
| ErrNoSequencePassed
(** [Exception('Unsupported scoring')] *)
| ErrUnsupportedScoring.

Inductive result (A : Type) :=
| Ok (a : A)
| Raise (e : PyExc).
Arguments Ok {A} a.
Arguments Raise {A} e.

Definition rbind {A B} (m : result A) (k : A -> result B) : result B :=
  match m with Ok a => k a | Raise e => Raise e end.

Notation "x <-? m ;; k" := (rbind m (fun x => k))
  (at level 100, m at next level, right associativity).

(* ------------------------------------------------------------------ *)
(** ** The Python string operations the code uses *)

Module Py.

(** [str.isspace] on one character (ASCII range): [\t \n \v \f \r],
    the separators [\x1c]..[\x1f] and the space. *)
Definition is_space (c : ascii) : bool :=
  let n := nat_of_ascii c in
  ((9 <=? n)%nat && (n <=? 13)%nat) || ((28 <=? n)%nat && (n <=? 32)%nat).

Fixpoint lstrip_l (s : list ascii) : list ascii :=
  match s with
  | [] => []
  | c :: r => if is_space c then lstrip_l r else s
  end.

(** [str.strip()] *)
Definition strip (s : string) : string :=
  string_of_list_ascii
    (rev (lstrip_l (rev (lstrip_l (list_ascii_of_string s))))).

Fixpoint split_l (sep : ascii) (s : list ascii) : list (list ascii) :=
  match s with
  | [] => [[]]
  | c :: r =>
      let parts := split_l sep r in
      if Ascii.eqb c sep then [] :: parts
      else match parts with
           | p :: ps => (c :: p) :: ps
           | [] => [[c]]
           end
  end.

(** [str.split(sep)] for a one-character separator. *)
Definition split (sep : ascii) (s : string) : list string :=
  map string_of_list_ascii (split_l sep (list_ascii_of_string s)).

Fixpoint split_ws_l (cur : list ascii) (s : list ascii) : list (list ascii) :=
  match s with
  | [] => match cur with [] => [] | _ => [rev cur] end
  | c :: r =>
      if is_space c then
        match cur with
        | [] => split_ws_l [] r
        | _ => rev cur :: split_ws_l [] r
        end
      else split_ws_l (c :: cur) r
  end.

(** [str.split()] (runs of whitespace, no empty fields). *)
Definition split_ws (s : string) : list string :=
  map string_of_list_ascii (split_ws_l [] (list_ascii_of_string s)).

(** [str.upper()] on ASCII letters. *)
Definition upper (s : string) : string :=
  string_of_list_ascii
    (map (fun c => let n := nat_of_ascii c in
                   if ((97 <=? n)%nat && (n <=? 122)%nat)
                   then ascii_of_nat (n - 32) else c)
         (list_ascii_of_string s)).

Definition is_digit (c : ascii) : bool :=
  let n := nat_of_ascii c in ((48 <=? n)%nat && (n <=? 57)%nat).

Definition digit (c : ascii) : Z := Z.of_nat (nat_of_ascii c - 48).

(** Decimal digits with single underscores between digits. *)
Fixpoint digits_aux (acc : Z) (s : list ascii) : option Z :=
  match s with
  | [] => Some acc
  | c :: r =>
      if is_digit c then digits_aux (acc * 10 + digit c) r
      else if Ascii.eqb c "_"%char then
        match r with
        | d :: r' => if is_digit d then digits_aux (acc * 10 + digit d) r'
                     else None
        | [] => None
        end
      else None
  end.

Definition parse_uint (s : list ascii) : option Z :=
  match s with
  | d :: r => if is_digit d then digits_aux (digit d) r else None
  | [] => None
  end.

(** [int(s)] on a [str]: surrounding whitespace, an optional sign, then
    decimal digits; [None] is the [ValueError]. *)
Definition int (s : string) : option Z :=
  match list_ascii_of_string (strip s) with
  | c :: r =>
      if Ascii.eqb c "-"%char then option_map Z.opp (parse_uint r)
      else if Ascii.eqb c "+"%char then parse_uint r
      else parse_uint (c :: r)
  | [] => None
  end.

(** [int(s)] raising [ValueError]. *)
Definition int_r (s : string) : result Z :=
  match int s with Some z => Ok z | None => Raise ValueError end.

End Py.

(* ------------------------------------------------------------------ *)
(** ** [GenericType] and [GenericFormat] (lines 19-82) *)

Inductive GenericType := CSV | TSV.

(** [GenericType[name]]: lookup of an enumeration member by name. *)
Definition GenericType_getitem (name : string) : option GenericType :=
  if String.eqb name "CSV" then Some CSV
  else if String.eqb name "TSV" then Some TSV
  else None.

Module GenericFormat.

(** The attributes of a constructed object; [typ = None] is an object on
    which [self.typ] was never assigned. *)
Record t := mk {
  typ : option GenericType;
  tid : Z;
  len : Z;
  sco : Z;
  unc : string
}.

(** [{pair.split(':')[0].strip(): pair.split(':')[1].strip() ...}]:
    the key/value pairs in order; [IndexError] when a block has no [:]. *)
Fixpoint fmt_pairs (blocks : list string) : result (list (string * string)) :=
  match blocks with
  | [] => Ok []
  | pr :: rest =>
      match Py.split ":" pr with
      | k :: v :: _ =>
          r <-? fmt_pairs rest ;; Ok ((Py.strip k, Py.strip v) :: r)
      | _ => Raise IndexError
      end
  end.

(** [fmt[key]] on the dict built from the pairs: the last pair wins. *)
Definition fmt_get (fmt : list (string * string)) (key : string) : result string :=
  match find (fun p => String.eqb (fst p) key) (rev fmt) with
  | Some (_, v) => Ok v
  | None => Raise KeyError
  end.

(** [GenericFormat.__init__(format)]. *)
Definition init (format : string) : result t :=
  let blocks := map Py.strip (Py.split "," format) in
  fmt <-? fmt_pairs blocks ;;
  typ0 <-? fmt_get fmt "TYP" ;;
  (* [except KeyError: print_error(...)] with no [raise]: [self.typ]
     stays unassigned and construction goes on *)
  let typ := GenericType_getitem (Py.upper typ0) in
  tid_s <-? fmt_get fmt "TID" ;; tid <-? Py.int_r tid_s ;;
  len_s <-? fmt_get fmt "LEN" ;; len <-? Py.int_r len_s ;;
  sco_s <-? fmt_get fmt "SCO" ;; sco <-? Py.int_r sco_s ;;
  unc <-? fmt_get fmt "UNC" ;;
  Ok (mk typ tid len sco unc).

End GenericFormat.

(* ------------------------------------------------------------------ *)
(** ** The scan of [read_generic_output] (lines 102-182) *)

(** Modelled from the spec: the [Scoring] enumeration of
    [recentrifuge.config] (not in src/).  The five policies the code
    dispatches on, and [Scoring_other] for any other member, which the code
    rejects as unsupported. *)
Inductive Scoring := SHEL | KRAKEN | LENGTH | LOGLENGTH | NORMA | Scoring_other.

(** The bindings of the free names [UNCLASSIFIED], [K_MER_SIZE] and
    [scoring] read by [read_generic_output]; [None] is an unbound name. *)
Record Globals := mkGlobals {
  UNCLASSIFIED : option string;
  K_MER_SIZE : option Z;
  scoring : option Scoring
}.

(** [generic.py] as shipped: none of the three names is defined or
    imported in the module. *)
Definition generic_globals : Globals := mkGlobals None None None.

(** Looking a name up: [NameError] when it is unbound. *)
Definition global {A} (name : string) (v : option A) : result A :=
  match v with Some a => Ok a | None => Raise (NameError name) end.

(** The local variables of [read_generic_output] that the loop updates. *)
Record ScanState := mkState {
  all_scores : gmap string (list Q);
  all_kmerel : gmap string (list Q);
  all_length : gmap string (list Z);
  num_read : Z;
  nt_read : Z;
  num_uncl : Z;
  error_read : Z
}.

(** Lines 103-109. *)
Definition init_state : ScanState := mkState ∅ ∅ ∅ 0 0 0 (-1).

(** State and exceptions: the state at the point of a raise is kept. *)
Definition M (A : Type) := ScanState -> result A * ScanState.

Definition mret {A} (a : A) : M A := fun s => (Ok a, s).
Definition mbind {A B} (m : M A) (k : A -> M B) : M B :=
  fun s => match m s with
           | (Ok a, s') => k a s'
           | (Raise e, s') => (Raise e, s')
           end.
Definition mraise {A} (e : PyExc) : M A := fun s => (Raise e, s).
Definition lift {A} (r : result A) : M A := fun s => (r, s).
Definition modify (f : ScanState -> ScanState) : M unit := fun s => (Ok tt, f s).

Notation "x <- m ;; k" := (mbind m (fun x => k))
  (at level 100, m at next level, right associativity).

(** [try: m except ValueError: h] *)
Definition except_ValueError {A} (m : M A) (h : M A) : M A :=
  fun s => match m s with
           | (Raise ValueError, s') => h s'
           | r => r
           end.

(** [num_read += 1; nt_read += length] *)
Definition count_read (length : Z) (st : ScanState) : ScanState :=
  mkState (all_scores st) (all_kmerel st) (all_length st)
          (num_read st + 1) (nt_read st + length) (num_uncl st) (error_read st).

(** [num_uncl += 1] *)
Definition count_uncl (st : ScanState) : ScanState :=
  mkState (all_scores st) (all_kmerel st) (all_length st)
          (num_read st) (nt_read st) (num_uncl st + 1) (error_read st).

(** [error_read = num_read + 1] *)
Definition mark_error (st : ScanState) : ScanState :=
  mkState (all_scores st) (all_kmerel st) (all_length st)
          (num_read st) (nt_read st) (num_uncl st) (num_read st + 1).

(** [try: d[k].append(x) except KeyError: d[k] = [x, ]] *)
Definition append_upsert {A} (k : string) (x : A) (m : gmap string (list A))
  : gmap string (list A) :=
  match m !! k with
  | Some l => <[k := l ++ [x]]> m
  | None => <[k := [x]]> m
  end.

(** Lines 167-178. *)
Definition push (tid : string) (shel score : Q) (length : Z) (st : ScanState)
  : ScanState :=
  mkState (append_upsert tid shel (all_scores st))
          (append_upsert tid score (all_kmerel st))
          (append_upsert tid length (all_length st))
          (num_read st) (nt_read st) (num_uncl st) (error_read st).

Fixpoint mapr {A B} (f : A -> result B) (l : list A) : result (list B) :=
  match l with
  | [] => Ok []
  | x :: r => y <-? f x ;; ys <-? mapr f r ;; Ok (y :: ys)
  end.

Definition sum_Z (l : list Z) : Z := fold_left Z.add l 0.

(** [list.remove(x)] with its [ValueError] ignored: the first occurrence
    is removed, if any. *)
Fixpoint list_remove (x : string) (l : list string) : list string :=
  match l with
  | [] => []
  | y :: r => if String.eqb y x then r else y :: list_remove x r
  end.

(** A [collections.Counter] of [Id]s, in insertion order. *)
Fixpoint counter_get (c : list (string * Z)) (k : string) : Z :=
  match c with
  | [] => 0
  | (k', v) :: r => if String.eqb k' k then v else counter_get r k
  end.

(** [c[k] += n] *)
Fixpoint counter_add (c : list (string * Z)) (k : string) (n : Z)
  : list (string * Z) :=
  match c with
  | [] => [(k, n)]
  | (k', v) :: r =>
      if String.eqb k' k then (k', v + n) :: r else (k', v) :: counter_add r k n
  end.

(** [sum(c.values())] *)
Definition counter_sum (c : list (string * Z)) : Z :=
  fold_left (fun acc p => acc + snd p) c 0.

(** Lines 147-149: [couple = pair.split(':');
    mappings[Id(couple[0])] += int(couple[1])]. *)
Fixpoint count_pairs (maps : list string) (mappings : list (string * Z))
  : result (list (string * Z)) :=
  match maps with
  | [] => Ok mappings
  | pr :: rest =>
      match Py.split ":" pr with
      | k :: v :: _ =>
          n <-? Py.int_r v ;; count_pairs rest (counter_add mappings k n)
      | _ => Raise IndexError
      end
  end.

(** What the body of the second [try] (lines 133-153) ends with. *)
Inductive Derived :=
| Unclassified
| Classified (tid : string) (length : Z) (shel score : Q).

(** Lines 134-153. *)
Definition derive (g : Globals) (_clas _tid _length _maps : string) : M Derived :=
  lens <- lift (mapr Py.int_r (Py.split "|" _length)) ;;
  let length := sum_Z lens in
  _ <- modify (count_read length) ;;
  u <- lift (global "UNCLASSIFIED" (UNCLASSIFIED g)) ;;
  if String.eqb _clas u then (_ <- modify count_uncl ;; mret Unclassified)
  else
    let tid := _tid in
    let maps := list_remove "|:|" (Py.split_ws _maps) in
    mappings <- lift (count_pairs maps []) ;;
    k <- lift (global "K_MER_SIZE" (K_MER_SIZE g)) ;;
    let shel := inject_Z (counter_get mappings tid + k) in
    let total := counter_sum mappings in
    if Z.eqb total 0 then mraise ZeroDivisionError
    else mret (Classified tid length shel
                 (inject_Z (counter_get mappings tid) / inject_Z total * 100)%Q).

(** Python's [a < b] on scores. *)
Definition Qltb (a b : Q) : bool := negb (Qle_bool b a).

(** How one data line ended. *)
Inductive Outcome := Errored | Uncl | Dropped | Kept.

(** Lines 160-178. *)
Definition filter_push (g : Globals) (minscore : option Q)
    (tid : string) (length : Z) (shel score : Q) : M Outcome :=
  match minscore with
  | Some ms =>
      s <- lift (global "scoring" (scoring g)) ;;
      match s with
      | KRAKEN => if Qltb score ms then mret Dropped
                  else (_ <- modify (push tid shel score length) ;; mret Kept)
      | _ => if Qltb shel ms then mret Dropped
             else (_ <- modify (push tid shel score length) ;; mret Kept)
      end
  | None => _ <- modify (push tid shel score length) ;; mret Kept
  end.

Definition TAB : ascii := "009"%char.

(** One iteration of [for raw_line in file] (lines 124-178). *)
Definition body (g : Globals) (minscore : option Q) (raw_line : string)
  : M Outcome :=
  let output_line := Py.strip raw_line in
  match Py.split TAB output_line with
  | [_clas; _label; _tid; _length; _maps] =>
      d <- except_ValueError
             (d <- derive g _clas _tid _length _maps ;; mret (Some d))
             (_ <- modify mark_error ;; mret None) ;;
      match d with
      | None => mret Errored
      | Some Unclassified => mret Uncl
      | Some (Classified tid length shel score) =>
          filter_push g minscore tid length shel score
      end
  | _ => _ <- modify mark_error ;; mret Errored
  end.

Fixpoint scan_lines (g : Globals) (minscore : option Q) (lines : list string)
  : M unit :=
  match lines with
  | [] => mret tt
  | l :: r => _ <- body g minscore l ;; scan_lines g minscore r
  end.

(** [file.readline()]: the first line, [""] on an empty file. *)
Definition readline (file : list string) : string :=
  match file with [] => ""%string | h :: _ => h end.

(** Lines 111-182 on a file given as its list of lines: the state after
    the [with] block, and whether the truncation warning is printed. *)
Definition scan (g : Globals) (minscore : option Q) (file : list string)
  : result (ScanState * bool) :=
  let header := Py.split TAB (readline file) in
  if negb (Nat.eqb (List.length header) 5) then Raise ErrUnsupportedFormat
  else match scan_lines g minscore (tl file) init_state with
       | (Ok _, st) => Ok (st, Z.eqb (error_read st) (num_read st + 1))
       | (Raise e, _) => Raise e
       end.

(* ------------------------------------------------------------------ *)
(** ** After the scan (lines 183-237) *)

(** Modelled from the spec: [SampleStats] of [recentrifuge.stats] (not in
    src/) as the snapshot of the values it is built from (line 193). *)
Module Stats.
Record SampleStats := mk {
  minscore : option Q;
  nt_read : Z;
  lens : gmap string (list Z);
  scores : gmap string (list Q);
  scores2 : gmap string (list Q);
  seq_read : Z;
  seq_unclas : Z;
  seq_filt : nat
}.
End Stats.

(** [statistics.mean]: the exact mean; [StatisticsError] on no data. *)
Definition mean (l : list Q) : result Q :=
  match l with
  | [] => Raise StatisticsError
  | _ => Ok (fold_right Qplus 0 l / inject_Z (Z.of_nat (List.length l)))%Q
  end.

(** The first exception raised by [f] over the items of a dict. *)
Fixpoint first_error {A} (f : string -> A -> result Q) (l : list (string * A))
  : option PyExc :=
  match l with
  | [] => None
  | (k, v) :: r =>
      match f k v with Raise e => Some e | Ok _ => first_error f r end
  end.

(** [{tid: f(tid, d[tid]) for tid in d}]: raises the exception of an item
    if one raises. *)
Definition dict_comp {A} (f : string -> A -> result Q) (d : gmap string A)
  : result (gmap string Q) :=
  match first_error f (map_to_list d) with
  | Some e => Raise e
  | None => Ok (map_imap (fun k v => match f k v with
                                     | Ok q => Some q
                                     | Raise _ => None
                                     end) d)
  end.

(** [sum([len(scores) for scores in all_scores.values()])] *)
Definition filt_count {A} (d : gmap string (list A)) : nat :=
  fold_right (fun kv acc => (List.length kv.2 + acc)%nat) 0%nat (map_to_list d).

Section Output.

(** [math.log10] on positive arguments (only the LOGLENGTH policy uses it). *)
Variable log10 : Q -> Q.

(** [Score(log10(x))]: [ValueError] (math domain error) unless [x > 0]. *)
Definition py_log10 (x : Q) : result Q :=
  if Qle_bool x 0 then Raise ValueError else Ok (log10 x).

(** [scores[tid] / lengths[tid] * 100] *)
Definition norma_entry (lengths : gmap string Q) (tid : string) (s : Q) : result Q :=
  match lengths !! tid with
  | None => Raise KeyError
  | Some l => if Qeq_bool l 0 then Raise ZeroDivisionError else Ok (s / l * 100)%Q
  end.

Definition len_mean (l : list Z) : result Q := mean (map inject_Z l).

(** Lines 216-235. *)
Definition select_scores (s : Scoring) (st : ScanState) : result (gmap string Q) :=
  match s with
  | SHEL => dict_comp (fun _ l => mean l) (all_scores st)
  | KRAKEN => dict_comp (fun _ l => mean l) (all_kmerel st)
  | LENGTH => dict_comp (fun _ l => len_mean l) (all_length st)
  | LOGLENGTH =>
      dict_comp (fun _ l => m <-? len_mean l ;; py_log10 m) (all_length st)
  | NORMA =>
      scores <-? dict_comp (fun _ l => mean l) (all_scores st) ;;
      lengths <-? dict_comp (fun _ l => len_mean l) (all_length st) ;;
      dict_comp (norma_entry lengths) scores
  | Scoring_other => Raise ErrUnsupportedScoring
  end.

(** [read_generic_output]: statistics, abundance counter and scores (the
    log string, informational only, is not modelled). *)
Definition read_generic_output (g : Globals) (minscore : option Q)
    (file : list string)
  : result (Stats.SampleStats * gmap string nat * gmap string Q) :=
  stw <-? scan g minscore file ;;
  let st := fst stw in
  let counts := (fun l => List.length l) <$> all_scores st in
  if Z.eqb (num_read st) 0 then Raise ErrNoSequenceRead else
  let filt_seqs := filt_count (all_scores st) in
  if Nat.eqb filt_seqs 0 then Raise ErrNoSequencePassed else
  let stat := Stats.mk minscore (nt_read st) (all_length st) (all_scores st)
                       (all_kmerel st) (num_read st) (num_uncl st) filt_seqs in
  s <-? global "scoring" (scoring g) ;;
  out_scores <-? select_scores s st ;;
  Ok (stat, counts, out_scores).

End Output.

(* ------------------------------------------------------------------ *)
(** ** Concrete inputs *)

Definition NL : string := String "010"%char EmptyString.

(** ['\t'.join(fields)] *)
Fixpoint join_tab (fields : list string) : string :=
  match fields with
  | [] => EmptyString
  | [f] => f
  | f :: r => (f ++ String TAB (join_tab r))%string
  end.

(** The header row of the spec's scenarios. *)
Definition header5 : string :=
  (join_tab ["C"; "label"; "taxid"; "length"; "maps"] ++ NL)%string.

(** A classified line whose k-mers all map to taxon 9606. *)
Definition line_9606 : string :=
  (join_tab ["C"; "r1"; "9606"; "100"; "9606:10"] ++ NL)%string.

(** A classified line whose k-mer counts sum to zero. *)
Definition zero_total_line : string :=
  (join_tab ["C"; "r0"; "9606"; "100"; "9606:0"] ++ NL)%string.

(** The spec's scenario: one unclassified line. *)
Definition unclassified_file : list string :=
  [header5; join_tab ["U"; "r1"; "0"; "100"; "0:50"]].

(** A classified line whose own taxon is not among its k-mer mappings. *)
Definition foreign_line : string :=
  (join_tab ["C"; "r1"; "9606"; "100"; "562:20"] ++ NL)%string.

(** A header with four columns. *)
Definition header4 : string :=
  (join_tab ["C"; "label"; "taxid"; "length"] ++ NL)%string.

(** A binding of the three free names as the sibling Kraken reader has
    them ([UNCLASSIFIED = 'U'], a fixed k-mer size), with SHEL scoring. *)
Definition bound_globals : Globals := mkGlobals (Some "U"%string) (Some 35) (Some SHEL).

(** [bound_globals] with the NORMA policy. *)
Definition norma_globals : Globals := mkGlobals (Some "U"%string) (Some 35) (Some NORMA).

(* ------------------------------------------------------------------ *)
(** ** Monad lemmas *)

(** Invariants of the state, through every action of the monad. *)
Definition preserves {A} (P : ScanState -> Prop) (m : M A) : Prop :=
  forall s, P s -> P (snd (m s)).

Lemma preserves_ret {A} P (a : A) : preserves P (mret a).
Proof. intros s H. exact H. Qed.

Lemma preserves_raise {A} P e : preserves P (@mraise A e).
Proof. intros s H. exact H. Qed.

Lemma preserves_lift {A} P (r : result A) : preserves P (lift r).
Proof. intros s H. exact H. Qed.

Lemma preserves_modify P f : (forall s, P s -> P (f s)) -> preserves P (modify f).
Proof. intros Hf s H. exact (Hf s H). Qed.

Lemma preserves_bind {A B} P (m : M A) (k : A -> M B) :
  preserves P m -> (forall a, preserves P (k a)) -> preserves P (mbind m k).
Proof.
  intros Hm Hk s H. unfold mbind.
  pose proof (Hm s H) as H1. destruct (m s) as [[a|e] s1]; simpl in *; auto.
  apply Hk; exact H1.
Qed.

Lemma preserves_except {A} P (m h : M A) :
  preserves P m -> preserves P h -> preserves P (except_ValueError m h).
Proof.
  intros Hm Hh s H. unfold except_ValueError.
  pose proof (Hm s H) as H1. destruct (m s) as [[a|[]] s1]; simpl in *; auto.
Qed.

(** The value computed by an action does not depend on the state. *)
Definition stateless {A} (m : M A) : Prop :=
  forall s s', fst (m s) = fst (m s').

Lemma stateless_ret {A} (a : A) : stateless (mret a).
Proof. intros s s'. reflexivity. Qed.

Lemma stateless_raise {A} e : stateless (@mraise A e).
Proof. intros s s'. reflexivity. Qed.

Lemma stateless_lift {A} (r : result A) : stateless (lift r).
Proof. intros s s'. reflexivity. Qed.

Lemma stateless_modify f : stateless (modify f).
Proof. intros s s'. reflexivity. Qed.

Lemma stateless_bind {A B} (m : M A) (k : A -> M B) :
  stateless m -> (forall a, stateless (k a)) -> stateless (mbind m k).
Proof.
  intros Hm Hk s s'. unfold mbind. specialize (Hm s s').
  destruct (m s) as [[a|e] s1], (m s') as [[a'|e'] s1']; simpl in *;
    try discriminate.
  - injection Hm as ->. apply Hk.
  - injection Hm as ->. reflexivity.
Qed.

Lemma stateless_except {A} (m h : M A) :
  stateless m -> stateless h -> stateless (except_ValueError m h).
Proof.
  intros Hm Hh s s'. unfold except_ValueError. specialize (Hm s s').
  destruct (m s) as [[a|e] s1], (m s') as [[a'|e'] s1']; simpl in *;
    try discriminate.
  - exact Hm.
  - injection Hm as <-. destruct e; simpl; auto.
Qed.

(** Walk an action built from [mret], [mbind], [lift], [mraise], [modify]
    and [except_ValueError], splitting on the pure tests in between. *)
Ltac walk_monad ret_l raise_l lift_l modify_tac bind_l except_l :=
  repeat
    match goal with
    | |- _ (mret _) => apply ret_l
    | |- _ (mraise _) => apply raise_l
    | |- _ (lift _) => apply lift_l
    | |- _ (modify _) => modify_tac
    | |- _ (except_ValueError _ _) => apply except_l
    | |- _ (mbind _ _) => apply bind_l; [ | intro ]
    | |- _ (let _ := _ in _) => cbv zeta
    | |- _ (if ?b then _ else _) => destruct b
    | |- _ (match ?x with _ => _ end) => destruct x
    end.

Ltac walk_preserves :=
  walk_monad preserves_ret preserves_raise preserves_lift
    ltac:(apply preserves_modify; intros ?s ?Hs)
    preserves_bind preserves_except.

Ltac walk_stateless :=
  walk_monad stateless_ret stateless_raise stateless_lift
    ltac:(apply stateless_modify)
    stateless_bind stateless_except.

Lemma body_stateless g minscore l : stateless (body g minscore l).
Proof.
  unfold body, derive, filter_push. walk_stateless.
Qed.

(* ------------------------------------------------------------------ *)
(** ** The per-taxon lists *)

Lemma lookup_append_upsert {A} (k : string) (x : A) (m : gmap string (list A)) j :
  append_upsert k x m !! j =
  if decide (k = j) then Some (default [] (m !! k) ++ [x]) else m !! j.
Proof.
  unfold append_upsert.
  destruct (m !! k) eqn:Hk; destruct (decide (k = j)) as [<-|Hne];
    rewrite ?lookup_insert_eq, ?lookup_insert_ne by exact Hne; reflexivity.
Qed.

(** For each taxon, its three lists are all absent, or all present with
    one length and at least one entry. *)
Definition lists_agree (st : ScanState) : Prop :=
  forall tid : string,
    match all_scores st !! tid, all_kmerel st !! tid, all_length st !! tid with
    | Some a, Some b, Some c =>
        List.length a = List.length b /\ List.length b = List.length c /\ a <> []
    | None, None, None => True
    | _, _, _ => False
    end.

Lemma lists_agree_init : lists_agree init_state.
Proof. intros tid. simpl. rewrite !lookup_empty. exact I. Qed.

Lemma lists_agree_push tid shel score length st :
  lists_agree st -> lists_agree (push tid shel score length st).
Proof.
  intros H j. unfold push; simpl. rewrite !lookup_append_upsert.
  destruct (decide (tid = j)) as [<-|Hne]; [| exact (H j)].
  specialize (H tid).
  destruct (all_scores st !! tid), (all_kmerel st !! tid), (all_length st !! tid);
    simpl in *; try contradiction; rewrite ?length_app; simpl.
  - destruct H as [H1 [H2 _]]. repeat split; try lia. destruct l; discriminate.
  - repeat split; discriminate.
Qed.

Lemma lists_agree_count_read length st :
  lists_agree st -> lists_agree (count_read length st).
Proof. intros H j. exact (H j). Qed.

Lemma lists_agree_count_uncl st : lists_agree st -> lists_agree (count_uncl st).
Proof. intros H j. exact (H j). Qed.

Lemma lists_agree_mark_error st : lists_agree st -> lists_agree (mark_error st).
Proof. intros H j. exact (H j). Qed.

Create HintDb scan.
#[local] Hint Resolve lists_agree_push lists_agree_count_read
  lists_agree_count_uncl lists_agree_mark_error : scan.

Lemma lists_agree_body g minscore l : preserves lists_agree (body g minscore l).
Proof.
  unfold body, derive, filter_push. walk_preserves; auto with scan.
Qed.

Lemma lists_agree_scan_lines g minscore lines :
  preserves lists_agree (scan_lines g minscore lines).
Proof.
  induction lines as [|l r IH]; simpl.
  - apply preserves_ret.
  - apply preserves_bind; [apply lists_agree_body | intros _; exact IH].
Qed.

(* ------------------------------------------------------------------ *)
(** ** The position marker of the last error *)

(** How [body] ends on a line; by [body_stateless] this does not depend on
    the state it starts from. *)
Definition line_outcome (g : Globals) (minscore : option Q) (l : string)
  : result Outcome :=
  fst (body g minscore l init_state).

Lemma body_counters g minscore l s o s' :
  body g minscore l s = (Ok o, s') ->
  (o = Errored /\ error_read s' = num_read s' + 1) \/
  (o <> Errored /\ num_read s' = num_read s + 1 /\ error_read s' = error_read s).
Proof.
  unfold body, derive, filter_push, except_ValueError, mbind, mret, lift,
    modify, mraise.
  cbv zeta. intros H.
  repeat (case_match; simpl in *; try discriminate);
  repeat match goal with
         | H : (_, _) = (_, _) |- _ => injection H; clear H; intros; subst
         end; simpl.
  all: first [ left; split; [reflexivity | simpl; lia]
             | right; split; [discriminate | simpl; split; lia] ].
Qed.

Lemma scan_lines_error_marker g minscore lines s s' :
  scan_lines g minscore lines s = (Ok tt, s') ->
  error_read s <= num_read s + 1 ->
  error_read s' <= num_read s' + 1 /\
  (error_read s' = num_read s' + 1 <->
   match last lines with
   | Some l => line_outcome g minscore l = Ok Errored
   | None => error_read s = num_read s + 1
   end).
Proof.
  revert s. induction lines as [|l r IH]; intros s Hrun Hinv.
  - simpl in Hrun. injection Hrun as <-. simpl. tauto.
  - simpl in Hrun. unfold mbind in Hrun.
    destruct (body g minscore l s) as [[o|e] s1] eqn:Hb; [| discriminate].
    destruct (IH s1 Hrun) as [Hinv' Hiff].
    { destruct (body_counters _ _ _ _ _ _ Hb) as [[_ He] | [_ [Hn He]]]; lia. }
    split; [exact Hinv' |]. rewrite Hiff.
    destruct r as [|l' r'].
    + simpl. unfold line_outcome.
      rewrite (body_stateless g minscore l init_state s), Hb. simpl.
      destruct (body_counters _ _ _ _ _ _ Hb) as [[-> He] | [Hne [Hn He]]].
      * tauto.
      * split; [lia | intros Ho; injection Ho as Ho; contradiction].
    + change (last (l :: l' :: r')) with (last (l' :: r')).
      destruct (last (l' :: r')) eqn:El; [reflexivity |].
      apply last_None in El. discriminate.
Qed.

(* ------------------------------------------------------------------ *)
(** ** The minimum-score filter *)

(** The metric the filter compares with the threshold (lines 161-165). *)
Definition metric (s : Scoring) (shel score : Q) : Q :=
  match s with KRAKEN => score | _ => shel end.

(** The number of retained records: [filt_seqs] of line 189. *)
Definition retained (st : ScanState) : nat := filt_count (all_scores st).

Lemma filt_count_perm {A} (l l' : list (string * list A)) :
  Permutation l l' ->
  fold_right (fun kv acc => (List.length kv.2 + acc)%nat) 0%nat l =
  fold_right (fun kv acc => (List.length kv.2 + acc)%nat) 0%nat l'.
Proof. induction 1; simpl; lia. Qed.

Lemma filt_count_append_upsert {A} (k : string) (x : A) (m : gmap string (list A)) :
  filt_count (append_upsert k x m) = S (filt_count m).
Proof.
  unfold filt_count, append_upsert.
  destruct (m !! k) as [l|] eqn:Hk.
  - rewrite <- (insert_delete_id m k l Hk) at 2.
    rewrite <- insert_delete_eq.
    rewrite (filt_count_perm _ _ (map_to_list_insert _ _ _ (lookup_delete_eq m k))).
    rewrite (filt_count_perm _ _ (map_to_list_insert _ _ _ (lookup_delete_eq m k))).
    simpl. rewrite length_app. simpl. lia.
  - rewrite (filt_count_perm _ _ (map_to_list_insert _ _ _ Hk)). simpl. lia.
Qed.

Lemma retained_push tid shel score length st :
  retained (push tid shel score length st) = S (retained st).
Proof. unfold retained, push. simpl. apply filt_count_append_upsert. Qed.

Lemma Qltb_spec (a b : Q) : Qltb a b = true <-> (a < b)%Q.
Proof.
  unfold Qltb. rewrite negb_true_iff. split.
  - intros H. apply Qnot_le_lt. intros H'. apply Qle_bool_iff in H'. congruence.
  - intros H. destruct (Qle_bool b a) eqn:E; [| reflexivity].
    apply Qle_bool_iff in E. exfalso. apply (Qlt_not_le a b H E).
Qed.

Lemma Qltb_mono (x T1 T2 : Q) :
  (T1 <= T2)%Q -> Qltb x T1 = true -> Qltb x T2 = true.
Proof.
  rewrite !Qltb_spec. intros H1 H2. exact (Qlt_le_trans _ _ _ H2 H1).
Qed.

(** The two runs of a line agree on the counters of the scan. *)
Definition same_counters (s1 s2 : ScanState) : Prop :=
  num_read s1 = num_read s2 /\ nt_read s1 = nt_read s2 /\
  num_uncl s1 = num_uncl s2 /\ error_read s1 = error_read s2.

Lemma body_threshold_mono g T1 T2 l s1 s2 o2 s2' :
  (T1 <= T2)%Q -> same_counters s1 s2 -> (retained s2 <= retained s1)%nat ->
  body g (Some T2) l s2 = (Ok o2, s2') ->
  exists o1 s1', body g (Some T1) l s1 = (Ok o1, s1') /\
    same_counters s1' s2' /\ (retained s2' <= retained s1')%nat.
Proof.
  intros HT [Hn [Ht [Hu He]]] Hr.
  unfold body, derive, filter_push, except_ValueError, mbind, mret, lift,
    modify, mraise.
  cbv zeta. intros H.
  repeat (case_match; simpl in *; try discriminate);
  repeat match goal with
         | H : (_, _) = (_, _) |- _ => injection H; clear H; intros; subst
         end.
  all: try discriminate.
  all: try match goal with
           | H1 : Qltb ?x ?a = true, H2 : Qltb ?x ?b = false |- _ =>
               rewrite (Qltb_mono x a b HT H1) in H2; discriminate
           end.
  all: eexists _, _; split; [reflexivity |].
  all: rewrite ?retained_push; unfold same_counters, retained in *; simpl;
       repeat split; lia.
Qed.

Lemma scan_lines_threshold_mono g T1 T2 lines s1 s2 s2' :
  (T1 <= T2)%Q -> same_counters s1 s2 -> (retained s2 <= retained s1)%nat ->
  scan_lines g (Some T2) lines s2 = (Ok tt, s2') ->
  exists s1', scan_lines g (Some T1) lines s1 = (Ok tt, s1') /\
    same_counters s1' s2' /\ (retained s2' <= retained s1')%nat.
Proof.
  intros HT. revert s1 s2.
  induction lines as [|l r IH]; intros s1 s2 Hc Hr Hrun; simpl in *.
  - injection Hrun as <-. exists s1. auto.
  - unfold mbind in *.
    destruct (body g (Some T2) l s2) as [[o2|e] s2m] eqn:Hb2; [| discriminate].
    destruct (body_threshold_mono g T1 T2 l s1 s2 o2 s2m HT Hc Hr Hb2)
      as (o1 & s1m & Hb1 & Hc' & Hr').
    rewrite Hb1. exact (IH s1m s2m Hc' Hr' Hrun).
Qed.

(** Two classified lines of taxon 9606 with shel 45 and 55 under
    [bound_globals]. *)
Definition two_9606_file : list string :=
  [header5;
   (join_tab ["C"; "r1"; "9606"; "100"; "9606:10"] ++ NL)%string;
   (join_tab ["C"; "r2"; "9606"; "100"; "9606:20 562:5"] ++ NL)%string].

(* ------------------------------------------------------------------ *)
(** ** The k-mer mappings of a record *)

(** The record's [kmerMappings]: the (taxonId, kmerCount) pairs of the
    mapping tokens, in order and with repetitions. *)
Fixpoint kmer_pairs (maps : list string) : result (list (string * Z)) :=
  match maps with
  | [] => Ok []
  | pr :: rest =>
      match Py.split ":" pr with
      | k :: v :: _ => n <-? Py.int_r v ;; ps <-? kmer_pairs rest ;; Ok ((k, n) :: ps)
      | _ => Raise IndexError
      end
  end.

(** The k-mer count of the pairs naming [tid], repetitions summed. *)
Definition own_count (pairs : list (string * Z)) (tid : string) : Z :=
  fold_right (fun p acc => (if String.eqb (fst p) tid then snd p else 0) + acc) 0 pairs.

(** The k-mer count of all pairs. *)
Definition total_count (pairs : list (string * Z)) : Z :=
  fold_right (fun p acc => snd p + acc) 0 pairs.

Definition add_pairs (c : list (string * Z)) (ps : list (string * Z)) :=
  fold_left (fun c p => counter_add c (fst p) (snd p)) ps c.

Lemma count_pairs_add_pairs maps c :
  count_pairs maps c = rbind (kmer_pairs maps) (fun ps => Ok (add_pairs c ps)).
Proof.
  revert c. induction maps as [|pr rest IH]; intros c; simpl; [reflexivity |].
  destruct (Py.split ":" pr) as [|k [|v ?]]; try reflexivity.
  destruct (Py.int_r v) as [n|e]; simpl; [| reflexivity].
  rewrite IH. destruct (kmer_pairs rest); reflexivity.
Qed.

Lemma counter_get_add c k n j :
  counter_get (counter_add c k n) j =
  counter_get c j + (if String.eqb k j then n else 0).
Proof.
  induction c as [|[k' v] r IH]; simpl.
  - destruct (String.eqb k j); lia.
  - destruct (String.eqb k' k) eqn:Ek; simpl.
    + apply String.eqb_eq in Ek as ->.
      destruct (String.eqb k j); lia.
    + rewrite IH. destruct (String.eqb k' j) eqn:Ej; [| reflexivity].
      apply String.eqb_eq in Ej as ->. rewrite String.eqb_sym, Ek. lia.
Qed.

Lemma counter_sum_acc c a :
  fold_left (fun acc p => acc + snd p) c a = a + counter_sum c.
Proof.
  unfold counter_sum. revert a. induction c as [|p r IH]; intros a; simpl.
  - lia.
  - rewrite (IH (a + snd p)), (IH (0 + snd p)). lia.
Qed.

Lemma counter_sum_cons p r : counter_sum (p :: r) = snd p + counter_sum r.
Proof. unfold counter_sum at 1. simpl. rewrite counter_sum_acc. lia. Qed.

Lemma counter_sum_add c k n : counter_sum (counter_add c k n) = counter_sum c + n.
Proof.
  induction c as [|[k' v] r IH]; simpl.
  - rewrite counter_sum_cons. simpl. unfold counter_sum. simpl. lia.
  - destruct (String.eqb k' k); rewrite !counter_sum_cons; simpl; lia.
Qed.

Lemma add_pairs_get c ps j :
  counter_get (add_pairs c ps) j = counter_get c j + own_count ps j.
Proof.
  revert c. induction ps as [|[k n] r IH]; intros c; simpl.
  - lia.
  - unfold add_pairs in *. simpl. rewrite IH, counter_get_add. lia.
Qed.

Lemma add_pairs_sum c ps :
  counter_sum (add_pairs c ps) = counter_sum c + total_count ps.
Proof.
  revert c. induction ps as [|[k n] r IH]; intros c; simpl.
  - lia.
  - unfold add_pairs in *. simpl. rewrite IH, counter_sum_add. lia.
Qed.

Lemma own_count_bounds ps j :
  Forall (fun p => 0 <= snd p) ps -> 0 <= own_count ps j <= total_count ps.
Proof.
  induction 1 as [|[k n] r Hn _ IH]; simpl in *; [lia |].
  destruct (String.eqb k j); lia.
Qed.

Lemma relative_score_bounds (o t : Z) :
  0 <= o <= t -> t <> 0 ->
  (0 <= inject_Z o / inject_Z t * 100 <= 100)%Q.
Proof.
  intros Ho Ht.
  assert (Hpos : (0 < inject_Z t)%Q) by (unfold Qlt; simpl; lia).
  split.
  - apply Qmult_le_0_compat; [| unfold Qle; simpl; lia].
    apply Qle_shift_div_l; [exact Hpos |].
    rewrite Qmult_0_l. unfold Qle; simpl; lia.
  - apply Qle_trans with (1 * 100)%Q; [| unfold Qle; simpl; lia].
    apply Qmult_le_compat_r; [| unfold Qle; simpl; lia].
    apply Qle_shift_div_r; [exact Hpos |].
    rewrite Qmult_1_l. unfold Qle; simpl; lia.
Qed.

Lemma derive_classified g c t len maps s tid length shel score s' :
  derive g c t len maps s = (Ok (Classified tid length shel score), s') ->
  exists k mappings,
    K_MER_SIZE g = Some k /\ tid = t /\
    count_pairs (list_remove "|:|" (Py.split_ws maps)) [] = Ok mappings /\
    counter_sum mappings <> 0 /\
    shel = inject_Z (counter_get mappings tid + k) /\
    score = (inject_Z (counter_get mappings tid) /
             inject_Z (counter_sum mappings) * 100)%Q.
Proof.
  unfold derive, mbind, mret, lift, modify, mraise.
  cbv zeta. intros H.
  repeat (case_match; simpl in *; try discriminate).
  injection H; clear H; intros; subst.
  match goal with Hk : global _ (K_MER_SIZE g) = Ok ?k |- _ =>
    exists k; destruct (K_MER_SIZE g); simpl in Hk; [injection Hk as -> | discriminate]
  end.
  eexists. repeat split; try eassumption; try reflexivity.
  apply Z.eqb_neq. assumption.
Qed.

(* ------------------------------------------------------------------ *)
(** ** The score map *)

(** The arithmetic mean of a nonempty list. *)
Definition Qavg (l : list Q) : Q :=
  (fold_right Qplus 0 l / inject_Z (Z.of_nat (List.length l)))%Q.

Lemma mean_ok l q : l <> [] -> mean l = Ok q -> q = Qavg l.
Proof. destruct l; [contradiction |]. intros _ H. injection H as <-. reflexivity. Qed.

Lemma first_error_none {A} (f : string -> A -> result Q) l :
  first_error f l = None -> forall k v, In (k, v) l -> exists q, f k v = Ok q.
Proof.
  induction l as [|[k' v'] r IH]; simpl; intros H k v Hin; [contradiction |].
  destruct (f k' v') as [q|e] eqn:E; [| discriminate].
  destruct Hin as [Heq | Hin].
  - injection Heq as <- <-. exists q. exact E.
  - exact (IH H k v Hin).
Qed.

Lemma dict_comp_ok {A} (f : string -> A -> result Q) (d : gmap string A) out k v :
  dict_comp f d = Ok out -> d !! k = Some v ->
  exists q, f k v = Ok q /\ out !! k = Some q.
Proof.
  unfold dict_comp. intros H Hk.
  destruct (first_error f (map_to_list d)) eqn:E; [discriminate |].
  injection H as <-.
  destruct (first_error_none f _ E k v) as [q Hq].
  { apply list_elem_of_In, elem_of_map_to_list. exact Hk. }
  exists q. split; [exact Hq |].
  rewrite map_lookup_imap, Hk. simpl. rewrite Hq. reflexivity.
Qed.

Lemma read_generic_output_ok log10 g minscore file stat counts out :
  read_generic_output log10 g minscore file = Ok (stat, counts, out) ->
  exists st w s,
    scan g minscore file = Ok (st, w) /\ scoring g = Some s /\
    Stats.scores stat = all_scores st /\ Stats.lens stat = all_length st /\
    Stats.scores2 stat = all_kmerel st /\
    select_scores log10 s st = Ok out.
Proof.
  unfold read_generic_output. intros H.
  destruct (scan g minscore file) as [[st w]|e] eqn:Es; simpl in H; [| discriminate].
  destruct (Z.eqb (num_read st) 0); [discriminate |].
  destruct (Nat.eqb _ 0); [discriminate |].
  destruct (scoring g) as [s|] eqn:Eg; simpl in H; [| discriminate].
  destruct (select_scores log10 s st) as [o|e] eqn:Eo; simpl in H; [| discriminate].
  injection H as <- _ <-.
  exists st, w, s. repeat split; reflexivity || assumption.
Qed.

Lemma scan_lists_agree g minscore file st w :
  scan g minscore file = Ok (st, w) -> lists_agree st.
Proof.
  intros H. unfold scan in H.
  destruct (negb _); [discriminate |].
  pose proof (lists_agree_scan_lines g minscore (tl file) init_state
                lists_agree_init) as Hi.
  destruct (scan_lines g minscore (tl file) init_state) as [[]] eqn:E;
    [| discriminate].
  injection H as <- _. exact Hi.
Qed.

(* ------------------------------------------------------------------ *)
(** ** The empty-result errors *)

(** When the scan completes with no read counted, or with none retained,
    [read_generic_output] raises. *)
Lemma read_generic_output_raises_when_empty log10 g minscore file st w :
  scan g minscore file = Ok (st, w) ->
  (num_read st = 0 ->
   read_generic_output log10 g minscore file = Raise ErrNoSequenceRead) /\
  (num_read st <> 0 -> retained st = 0%nat ->
   read_generic_output log10 g minscore file = Raise ErrNoSequencePassed).
Proof.
  intros H. unfold read_generic_output. rewrite H. simpl. split.
  - intros ->. reflexivity.
  - intros Hn Hr. apply Z.eqb_neq in Hn. rewrite Hn.
    unfold retained in Hr. rewrite Hr. reflexivity.
Qed.

(* ------------------------------------------------------------------ *)
(** ** Further code of generic.py: line accounting, format strings and
    [select_kraken_inputs] *)

(** The read length a line contributes to [seq_read] and [nt_read]
    (lines 127-136): defined when the stripped line has five tab-separated
    fields and every ['|']-separated part of the length field parses. *)
Definition line_length (raw_line : string) : option Z :=
  match Py.split TAB (Py.strip raw_line) with
  | [_; _; _; _length; _] =>
      match mapr Py.int_r (Py.split "|" _length) with
      | Ok lens => Some (sum_Z lens)
      | Raise _ => None
      end
  | _ => None
  end.

(** An outcome of a line that did not raise, tested by [p]. *)
Definition outcome_is (p : Outcome -> bool) (r : result Outcome) : bool :=
  match r with Ok o => p o | Raise _ => false end.

(** The line is counted as unclassified. *)
Definition is_uncl (o : Outcome) : bool := match o with Uncl => true | _ => false end.

(** The line is retained under its taxon. *)
Definition is_kept (o : Outcome) : bool := match o with Kept => true | _ => false end.

(** The line is counted in [seq_read]. *)
Definition length_parses (l : string) : bool :=
  match line_length l with Some _ => true | None => false end.

(** The sum of the read lengths the lines contribute. *)
Definition nt_total (lines : list string) : Z :=
  fold_right (fun l acc => default 0 (line_length l) + acc) 0 lines.

(** The number of lines whose outcome satisfies [p]. *)
Definition outcome_count g m (p : Outcome -> bool) (lines : list string) : nat :=
  List.length (List.filter (fun l => outcome_is p (line_outcome g m l)) lines).

(** The first exception among the outcomes of the lines, in file order. *)
Fixpoint first_raise (rs : list (result Outcome)) : option PyExc :=
  match rs with
  | [] => None
  | Raise e :: _ => Some e
  | Ok _ :: r => first_raise r
  end.

(** The score of a taxon under each policy, from its three lists. *)
Definition policy_score (log10 : Q -> Q) (s : Scoring) (ss ks : list Q) (ls : list Z)
  : option Q :=
  match s with
  | SHEL => Some (Qavg ss)
  | KRAKEN => Some (Qavg ks)
  | LENGTH => Some (Qavg (map inject_Z ls))
  | LOGLENGTH => Some (log10 (Qavg (map inject_Z ls)))
  | NORMA => Some (Qavg ss / Qavg (map inject_Z ls) * 100)%Q
  | Scoring_other => None
  end.

(** [sep.join(fields)] *)
Fixpoint join_with (sep : ascii) (fields : list string) : string :=
  match fields with
  | [] => EmptyString
  | [f] => f
  | f :: r => (f ++ String sep (join_with sep r))%string
  end.

(** A key or value without [,], [:] or whitespace. *)
Definition plain (s : string) : bool :=
  forallb (fun c => negb (Ascii.eqb c ",") && negb (Ascii.eqb c ":") && negb (Py.is_space c))
    (list_ascii_of_string s).

(** A decimal numeral: one or more digits. *)
Definition numeral (s : string) : bool :=
  match list_ascii_of_string s with [] => false | l => forallb Py.is_digit l end.

(** The value of a decimal numeral. *)
Definition decimal (s : string) : Z :=
  fold_left (fun acc c => acc * 10 + Py.digit c) (list_ascii_of_string s) 0.

(** A character that is neither [,], [:] nor whitespace. *)
Definition clean_char (c : ascii) : Prop :=
  Ascii.eqb c "," = false /\ Ascii.eqb c ":" = false /\ Py.is_space c = false.

(** The block [key:value]. *)
Definition mk_block (kv : string * string) : string := (kv.1 ++ String ":" kv.2)%string.

(** A block with no [:]: [pair.split(':')[1]] is out of range. *)
Definition malformed_block (b : string) : bool :=
  (List.length (Py.split ":" b) <=? 1)%nat.

(** [s.startswith(p)] *)
Definition str_startswith (s p : string) : bool := String.prefix p s.

(** [s.endswith(p)] *)
Definition str_endswith (s p : string) : bool :=
  String.prefix (string_of_list_ascii (rev (list_ascii_of_string p)))
                (string_of_list_ascii (rev (list_ascii_of_string s))).

(** [posixpath.join(a, b)] for one component. *)
Definition os_path_join (a b : string) : string :=
  if str_startswith b "/" then b
  else if String.eqb a "" || str_endswith a "/" then (a ++ b)%string
  else (a ++ "/" ++ b)%string.

(** Python's [<=] on [str]: lexicographic by code point. *)
Definition py_str_le (s t : string) : Prop := String.leb s t = true.

(** Its decision, for [merge_sort]. *)
#[global] Instance py_str_le_dec : RelDecision py_str_le :=
  fun s t => decide (String.leb s t = true).

(** The path appended for a directory entry (lines 248-251). *)
Definition entry_path (dir_name name : string) : string :=
  if negb (String.eqb dir_name ".") then os_path_join dir_name name else name.

(** The test of line 247. *)
Definition selected (ext name : string) : bool :=
  negb (str_startswith name ".") && str_endswith name ext.

(** [select_kraken_inputs(krakens, ext)]: [krakens] is mutated in place;
    the result is the exception raised, if any, and the contents of the
    list afterwards.  [scandir dir] is the list of entry names of [dir] in
    the order [os.scandir] yields them, or the [OSError] it raises.
    [list.sort()] is [merge_sort py_str_le]: under a total order the
    sorted permutation is unique, whatever the algorithm. *)
Definition select_kraken_inputs (scandir : string -> result (list string))
    (krakens : list string) (ext : string) : result unit * list string :=
  match krakens with
  | [] => (Raise IndexError, krakens)
  | dir_name :: _ =>
      (* krakens.clear() *)
      match scandir dir_name with
      | Raise e => (Raise e, [])
      | Ok names =>
          let appended :=
            fold_left (fun acc fil =>
                         if selected ext fil then acc ++ [entry_path dir_name fil]
                         else acc) names [] in
          (Ok tt, merge_sort py_str_le appended)
      end
  end.

(** Concrete inputs for these parts. *)

(** A classified line whose length parses and whose mapping token has a
    non-numeric count. *)
Definition bad_map_line : string :=
  (join_tab ["C"; "r2"; "9606"; "50"; "9606:x"] ++ NL)%string.

(** A file of one good line and such a line. *)
Definition malformed_map_file : list string := [header5; line_9606; bad_map_line].

(** A file of one classified read of length 0. *)
Definition zero_length_file : list string :=
  [header5; (join_tab ["C"; "r1"; "9606"; "0"; "9606:10"] ++ NL)%string].

(** [bound_globals] with the LOGLENGTH policy. *)
Definition loglength_globals : Globals :=
  mkGlobals (Some "U"%string) (Some 35) (Some LOGLENGTH).

(** A directory listing: [runs] holds four entries, any other path fails. *)
Definition scandir_runs (d : string) : result (list string) :=
  if String.eqb d "runs" then Ok ["b.krk"; ".hidden.krk"; "a.krk"; "notes.txt"]%string
  else Raise ValueError.

(** The same directory, its entries yielded in another order. *)
Definition scandir_runs' (d : string) : result (list string) :=
  if String.eqb d "runs" then Ok ["notes.txt"; "a.krk"; "b.krk"; ".hidden.krk"]%string
  else Raise ValueError.

(** A valid format string. *)
Definition tsv_format : string := "TYP:tsv,TID:1,LEN:2,SCO:3,UNC:U".

(* ------------------------------------------------------------------ *)
(** ** Claims *)

(** C1 (GenericFormat construction): with a TYP value that names no
    [GenericType] member, construction does not fail: the [KeyError] branch
    prints a message without re-raising, and an object is returned whose
    [typ] attribute was never assigned, while the other four are set. *)
Theorem GenericFormat_unknown_typ_constructed :
  GenericFormat.init "TYP:XLS,TID:1,LEN:2,SCO:3,UNC:U" =
  Ok (GenericFormat.mk None 1 2 3 "U").
Proof. vm_compute. reflexivity. Qed.

(** C5 (header check): when the first line does not split into exactly 5
    tab-separated fields, [read_generic_output] raises the
    unsupported-format exception, whatever the data lines that follow. *)
Theorem header_mismatch_aborts log10 g minscore (header : string) (rest : list string) :
  List.length (Py.split TAB header) <> 5%nat ->
  scan g minscore (header :: rest) = Raise ErrUnsupportedFormat /\
  read_generic_output log10 g minscore (header :: rest) = Raise ErrUnsupportedFormat.
Proof.
  intros H. unfold read_generic_output, scan. simpl readline.
  apply Nat.eqb_neq in H. rewrite H. split; reflexivity.
Qed.

Lemma header_mismatch_aborts_witness :
  List.length (Py.split TAB header4) <> 5%nat /\
  scan bound_globals None
    [header4; line_9606] = Raise ErrUnsupportedFormat /\
  read_generic_output (fun x => x) bound_globals None
    [header4; line_9606] = Raise ErrUnsupportedFormat.
Proof.
  assert (H : List.length (Py.split TAB header4) <> 5%nat) by (vm_compute; discriminate).
  split; [exact H |].
  exact (header_mismatch_aborts (fun x => x) bound_globals None header4 _ H).
Defined.

(** C7 (per-taxon lists): after every prefix of the data lines, and after
    a completed scan, every taxon has either none of the three lists or all
    three with the same length (and at least one entry): a retained record
    is appended to the three lists in one step. *)
Theorem per_taxon_lists_agree g minscore (lines : list string) (n : nat) :
  lists_agree (snd (scan_lines g minscore (firstn n lines) init_state)) /\
  (forall file st w, scan g minscore file = Ok (st, w) -> lists_agree st).
Proof.
  split.
  - apply lists_agree_scan_lines, lists_agree_init.
  - intros file st w H. unfold scan in H.
    destruct (negb _); [discriminate |].
    pose proof (lists_agree_scan_lines g minscore (tl file) init_state
                  lists_agree_init) as Hi.
    destruct (scan_lines g minscore (tl file) init_state) as [[]] eqn:E;
      [| discriminate].
    injection H as <- _. exact Hi.
Qed.

(** C9 (truncation warning): on a completed scan, the warning is printed
    exactly when the last data line of the file took one of the two
    per-line error branches; an error followed by a line that was counted
    leaves no warning. *)
Theorem truncation_warning_iff_last_line_errored g minscore file st w :
  scan g minscore file = Ok (st, w) ->
  (w = true <->
   match last (tl file) with
   | Some l => line_outcome g minscore l = Ok Errored
   | None => False
   end).
Proof.
  intros H. unfold scan in H.
  destruct (negb _); [discriminate |].
  destruct (scan_lines g minscore (tl file) init_state) as [[[]|e] s'] eqn:E;
    [| discriminate].
  injection H as <- <-.
  destruct (scan_lines_error_marker g minscore (tl file) init_state s' E)
    as [_ Hiff]; [simpl; lia |].
  rewrite Z.eqb_eq, Hiff. destruct (last (tl file)); [reflexivity |].
  simpl. split; [lia | contradiction].
Qed.

Lemma truncation_warning_iff_last_line_errored_witness :
  scan bound_globals None
    [header5; line_9606; "C"%string]
  = Ok (snd (scan_lines bound_globals None
               [line_9606; "C"%string]
               init_state), true) /\
  line_outcome bound_globals None "C" = Ok Errored.
Proof.
  assert (H : scan bound_globals None
    [header5; line_9606; "C"%string]
  = Ok (snd (scan_lines bound_globals None
               [line_9606; "C"%string]
               init_state), true)) by (vm_compute; reflexivity).
  split; [exact H |].
  exact (proj1 (truncation_warning_iff_last_line_errored _ _ _ _ _ H) eq_refl).
Defined.

(** C3 (minimum-score filter): with a threshold [T] configured and the
    policy [s] bound, a derived record is appended to the per-taxon lists
    when its policy metric (relativeScore under KRAKEN, shel otherwise) is
    at least [T], and dropped, leaving the state unchanged, when it is
    below; and raising the threshold never increases the number of
    retained records of a completed scan of the same file. *)
Theorem threshold_filter_antitone g (T : Q) :
  (forall s tid length shel score st,
     scoring g = Some s ->
     (filter_push g (Some T) tid length shel score st =
        (Ok Kept, push tid shel score length st) /\ (T <= metric s shel score)%Q)
     \/ (filter_push g (Some T) tid length shel score st = (Ok Dropped, st) /\
         (metric s shel score < T)%Q)) /\
  (forall T' file st w,
     (T <= T')%Q -> scan g (Some T') file = Ok (st, w) ->
     exists st1 w1, scan g (Some T) file = Ok (st1, w1) /\
       (retained st <= retained st1)%nat).
Proof.
  split.
  - intros s tid length shel score st Hs.
    unfold filter_push, mbind, lift, global. rewrite Hs. cbv beta iota.
    destruct s; simpl metric;
      match goal with
      | |- context [Qltb ?x T] => destruct (Qltb x T) eqn:E
      end;
      first [ right; split; [reflexivity | apply Qltb_spec; exact E]
            | left; split; [reflexivity |];
              apply Qnot_lt_le; intros Hlt; apply Qltb_spec in Hlt; congruence ].
  - intros T' file st w HT H. unfold scan in *.
    destruct (negb _); [discriminate |].
    destruct (scan_lines g (Some T') (tl file) init_state) as [[[]|e] s2] eqn:E;
      [| discriminate].
    injection H as <- <-.
    destruct (scan_lines_threshold_mono g T T' (tl file) init_state init_state s2
                HT ltac:(repeat split) (le_n _) E) as (s1 & E1 & _ & Hr).
    rewrite E1. eexists _, _. split; [reflexivity | exact Hr].
Qed.

Lemma threshold_filter_antitone_witness :
  ((filter_push bound_globals (Some 40%Q) "9606" 100 45%Q 90%Q init_state =
      (Ok Kept, push "9606" 45%Q 90%Q 100 init_state) /\
    (40 <= metric SHEL 45%Q 90%Q)%Q) \/
   (filter_push bound_globals (Some 40%Q) "9606" 100 45%Q 90%Q init_state =
      (Ok Dropped, init_state) /\ (metric SHEL 45%Q 90%Q < 40)%Q)) /\
  match scan bound_globals (Some 50%Q) two_9606_file with
  | Ok (st, w) =>
      exists st1 w1, scan bound_globals (Some 40%Q) two_9606_file = Ok (st1, w1) /\
        (retained st <= retained st1)%nat
  | Raise _ => False
  end.
Proof.
  split.
  - exact (proj1 (threshold_filter_antitone bound_globals 40%Q)
             SHEL "9606" 100 45%Q 90%Q init_state eq_refl).
  - destruct (scan bound_globals (Some 50%Q) two_9606_file) as [[st w]|e] eqn:E.
    + exact (proj2 (threshold_filter_antitone bound_globals 40%Q) 50%Q
               two_9606_file st w ltac:(vm_compute; discriminate) E).
    + vm_compute in E. discriminate.
Defined.

(** C4 (shel and relativeScore), as amended: for every classified record
    the scan derives (its own taxon id [t], its mapping field [maps]),
    shel is the k-mer count of the pairs naming [t] (repetitions summed)
    plus [K_MER_SIZE], relativeScore is that count over the nonzero total
    count of all pairs times 100, and relativeScore lies in [0,100] when
    no k-mer count is negative. *)
Theorem derived_shel_and_relative_score g c t len maps s tid length shel score s' :
  derive g c t len maps s = (Ok (Classified tid length shel score), s') ->
  exists k pairs,
    K_MER_SIZE g = Some k /\ tid = t /\
    kmer_pairs (list_remove "|:|" (Py.split_ws maps)) = Ok pairs /\
    total_count pairs <> 0 /\
    shel = inject_Z (own_count pairs t + k) /\
    score = (inject_Z (own_count pairs t) / inject_Z (total_count pairs) * 100)%Q /\
    (Forall (fun p => 0 <= snd p) pairs -> (0 <= score <= 100)%Q).
Proof.
  intros H.
  destruct (derive_classified _ _ _ _ _ _ _ _ _ _ _ H)
    as (k & mappings & Hk & -> & Hc & Hnz & -> & ->).
  rewrite count_pairs_add_pairs in Hc.
  destruct (kmer_pairs (list_remove "|:|" (Py.split_ws maps))) as [pairs|e];
    simpl in Hc; [| discriminate].
  injection Hc as <-.
  rewrite add_pairs_sum in *. rewrite add_pairs_get.
  change (counter_get [] t) with 0. change (counter_sum []) with 0 in *.
  rewrite !Z.add_0_l in *.
  exists k, pairs.
  split; [exact Hk |]. split; [reflexivity |]. split; [reflexivity |].
  split; [exact Hnz |]. split; [reflexivity |]. split; [reflexivity |].
  intros Hnn. apply relative_score_bounds; [| exact Hnz].
  apply own_count_bounds. exact Hnn.
Qed.

Lemma derived_shel_and_relative_score_witness :
  derive bound_globals "C" "9606" "100" "9606:10 562:20 9606:10" init_state =
    (Ok (Classified "9606" 100 55 (inject_Z 20 / inject_Z 40 * 100)),
     count_read 100 init_state) /\
  exists k pairs,
    K_MER_SIZE bound_globals = Some k /\ "9606"%string = "9606"%string /\
    kmer_pairs (list_remove "|:|" (Py.split_ws "9606:10 562:20 9606:10")) = Ok pairs /\
    total_count pairs <> 0 /\
    55%Q = inject_Z (own_count pairs "9606" + k) /\
    (inject_Z 20 / inject_Z 40 * 100)%Q =
      (inject_Z (own_count pairs "9606") / inject_Z (total_count pairs) * 100)%Q /\
    (Forall (fun p => 0 <= snd p) pairs ->
     (0 <= inject_Z 20 / inject_Z 40 * 100 <= 100)%Q).
Proof.
  assert (E : derive bound_globals "C" "9606" "100" "9606:10 562:20 9606:10" init_state =
    (Ok (Classified "9606" 100 55 (inject_Z 20 / inject_Z 40 * 100)),
     count_read 100 init_state)) by (vm_compute; reflexivity).
  split; [exact E |].
  exact (derived_shel_and_relative_score _ _ _ _ _ _ _ _ _ _ _ E).
Defined.

(** C4, as stated, fails: a classified record whose k-mer counts include a
    negative one ([int] accepts [-5]) has nonzero total 5 and
    relativeScore [10 / 5 * 100 = 200]. *)
Lemma relative_score_above_100 :
  ~ (forall g c t len maps s tid length shel score s',
       derive g c t len maps s = (Ok (Classified tid length shel score), s') ->
       (0 <= score <= 100)%Q).
Proof.
  intros H.
  assert (E : derive bound_globals "C" "9606" "100" "9606:10 2:-5" init_state =
              (Ok (Classified "9606" 100 45 (inject_Z 10 / inject_Z 5 * 100)),
               count_read 100 init_state))
    by (vm_compute; reflexivity).
  destruct (H _ _ _ _ _ _ _ _ _ _ _ E) as [_ Hle].
  vm_compute in Hle. apply Hle. reflexivity.
Qed.

(** C8 (NORMALIZED policy): when [read_generic_output] returns under the
    NORMA policy, every taxon with retained records has in the score map
    the mean of its shel list over the mean of its length list, times 100
    (exactly, rounding not being modelled). *)
Theorem norma_score_is_mean_ratio log10 g minscore file stat counts out tid ss :
  scoring g = Some NORMA ->
  read_generic_output log10 g minscore file = Ok (stat, counts, out) ->
  Stats.scores stat !! tid = Some ss ->
  exists ls,
    Stats.lens stat !! tid = Some ls /\ ss <> [] /\
    List.length ls = List.length ss /\
    out !! tid = Some (Qavg ss / Qavg (map inject_Z ls) * 100)%Q.
Proof.
  intros Hg H Hss.
  destruct (read_generic_output_ok _ _ _ _ _ _ _ H)
    as (st & w & s & Hscan & Hs & Hsc & Hln & _ & Hsel).
  rewrite Hsc in Hss. rewrite Hln.
  rewrite Hg in Hs. injection Hs as <-.
  pose proof (scan_lists_agree _ _ _ _ _ Hscan tid) as Hagree.
  rewrite Hss in Hagree.
  destruct (all_kmerel st !! tid), (all_length st !! tid) as [ls|] eqn:Hls;
    try contradiction.
  destruct Hagree as (Hl1 & Hl2 & Hne).
  exists ls. split; [reflexivity |]. split; [exact Hne |]. split; [lia |].
  simpl in Hsel.
  destruct (dict_comp (fun _ l => mean l) (all_scores st)) as [scores|] eqn:E1;
    [| discriminate].
  destruct (dict_comp (fun _ l => len_mean l) (all_length st)) as [lengths|] eqn:E2;
    [| discriminate].
  simpl in Hsel.
  destruct (dict_comp_ok _ _ _ tid ss E1 Hss) as (qs & Hqs & Hs1).
  destruct (dict_comp_ok _ _ _ tid ls E2 Hls) as (ql & Hql & Hl).
  destruct (dict_comp_ok _ _ _ tid qs Hsel Hs1) as (q & Hq & Ho).
  rewrite Ho. unfold norma_entry in Hq. rewrite Hl in Hq.
  destruct (Qeq_bool ql 0); [discriminate |]. injection Hq as <-.
  rewrite (mean_ok ss qs Hne Hqs).
  unfold len_mean in Hql.
  assert (Hne' : map inject_Z ls <> []).
  { destruct ls; simpl in *; [destruct ss; [contradiction | discriminate] | discriminate]. }
  rewrite (mean_ok _ ql Hne' Hql). reflexivity.
Qed.

Lemma norma_score_is_mean_ratio_witness :
  match read_generic_output (fun x => x) norma_globals None two_9606_file with
  | Ok (stat, counts, out) =>
      match Stats.scores stat !! "9606"%string with
      | Some ss =>
          exists ls,
            Stats.lens stat !! "9606"%string = Some ls /\ ss <> [] /\
            List.length ls = List.length ss /\
            out !! "9606"%string = Some (Qavg ss / Qavg (map inject_Z ls) * 100)%Q
      | None => False
      end
  | Raise _ => False
  end.
Proof.
  destruct (read_generic_output (fun x => x) norma_globals None two_9606_file)
    as [[[stat counts] out]|e] eqn:E.
  - destruct (Stats.scores stat !! "9606"%string) as [ss|] eqn:Ess.
    + exact (norma_score_is_mean_ratio (fun x => x) norma_globals None two_9606_file
               stat counts out "9606" ss eq_refl E Ess).
    + vm_compute in E. injection E as <- _ _. vm_compute in Ess. discriminate.
  - vm_compute in E. discriminate.
Defined.

(** C2 (per-record errors): a classified line whose k-mer counts sum to
    zero is not skipped: the scan raises and the valid line after it is
    never read.  In the module as shipped the raise is [NameError] for
    [UNCLASSIFIED]; with the free names bound (here [UNCLASSIFIED = 'U'],
    any k-mer size and policy) it is [ZeroDivisionError] from line 152,
    which [except ValueError] does not catch. *)
Theorem zero_kmer_total_aborts_scan minscore (k : Z) (sc : option Scoring) :
  scan generic_globals minscore [header5; zero_total_line; line_9606] =
    Raise (NameError "UNCLASSIFIED") /\
  scan (mkGlobals (Some "U"%string) (Some k) sc) minscore
       [header5; zero_total_line; line_9606] = Raise ZeroDivisionError.
Proof. split; vm_compute; reflexivity. Qed.

(** C6 (empty results): on the spec's scenario (one unclassified line),
    the module as shipped raises [NameError] for [UNCLASSIFIED] at that
    line, not the no-sequence-passed error; with [UNCLASSIFIED] bound to
    ['U'] the scenario behaves as the claim says. *)
Theorem unclassified_scenario_name_error log10 minscore :
  read_generic_output log10 generic_globals minscore unclassified_file =
    Raise (NameError "UNCLASSIFIED") /\
  (exists st w,
     scan bound_globals minscore unclassified_file = Ok (st, w) /\
     num_read st = 1 /\ num_uncl st = 1 /\ retained st = 0%nat /\
     read_generic_output log10 bound_globals minscore unclassified_file =
       Raise ErrNoSequencePassed).
Proof.
  split.
  - vm_compute. reflexivity.
  - eexists _, _. split; [vm_compute; reflexivity |].
    split; [reflexivity |]. split; [reflexivity |]. split; [vm_compute; reflexivity |].
    vm_compute. reflexivity.
Qed.

(** C10 (own taxon absent from the mappings): in the module as shipped,
    such a classified line aborts the scan with [NameError] for
    [UNCLASSIFIED] instead of being processed; with the free names bound,
    it is retained under its own taxon with shel [K_MER_SIZE] and
    relativeScore [0 / 20 * 100 = 0]. *)
Theorem own_taxon_absent_line log10 minscore :
  scan generic_globals minscore [header5; foreign_line; line_9606] =
    Raise (NameError "UNCLASSIFIED") /\
  read_generic_output log10 generic_globals minscore [header5; foreign_line] =
    Raise (NameError "UNCLASSIFIED") /\
  body bound_globals None foreign_line init_state =
    (Ok Kept, push "9606" 35 (inject_Z 0 / inject_Z 20 * 100) 100
                (count_read 100 init_state)) /\
  (inject_Z 0 / inject_Z 20 * 100 == 0)%Q.
Proof.
  split; [vm_compute; reflexivity |].
  split; [vm_compute; reflexivity |].
  split; [vm_compute; reflexivity |].
  reflexivity.
Qed.

(* ------------------------------------------------------------------ *)
(** ** Further properties of the code *)

Lemma body_step g m l s o s' :
  body g m l s = (Ok o, s') ->
  num_read s' = num_read s + (match line_length l with Some _ => 1 | None => 0 end) /\
  nt_read s' = nt_read s + default 0 (line_length l) /\
  num_uncl s' = num_uncl s + (if is_uncl o then 1 else 0) /\
  retained s' = (retained s + if is_kept o then 1 else 0)%nat.
Proof.
  unfold body, derive, filter_push, except_ValueError, mbind, mret, lift,
    modify, mraise, global, line_length.
  cbv zeta. intros H.
  repeat (case_match; simpl in *; try discriminate);
  repeat match goal with
         | H : (_, _) = (_, _) |- _ => injection H; clear H; intros; subst
         end; simpl.
  all: try discriminate.
  all: rewrite ?retained_push; unfold retained; simpl; repeat split; lia.
Qed.

Lemma body_line_outcome g m l s o s' :
  body g m l s = (Ok o, s') -> line_outcome g m l = Ok o.
Proof.
  intros H. unfold line_outcome.
  rewrite (body_stateless g m l init_state s), H. reflexivity.
Qed.

Lemma scan_lines_counts g m lines s s' :
  scan_lines g m lines s = (Ok tt, s') ->
  num_read s' = num_read s + Z.of_nat (List.length (List.filter length_parses lines)) /\
  nt_read s' = nt_read s + nt_total lines /\
  num_uncl s' = num_uncl s + Z.of_nat (outcome_count g m is_uncl lines) /\
  retained s' = (retained s + outcome_count g m is_kept lines)%nat.
Proof.
  unfold outcome_count.
  revert s. induction lines as [|l r IH]; intros s H.
  - simpl in *. injection H as <-. repeat split; lia.
  - cbn [scan_lines] in H. unfold mbind in H.
    destruct (body g m l s) as [[o|e] s1] eqn:Hb; [| discriminate].
    destruct (IH s1 H) as (H1 & H2 & H3 & H4).
    destruct (body_step _ _ _ _ _ _ Hb) as (B1 & B2 & B3 & B4).
    cbn [List.filter nt_total fold_right].
    rewrite (body_line_outcome _ _ _ _ _ _ Hb).
    unfold length_parses at 1.
    fold (nt_total r).
    destruct (line_length l); destruct o; simpl in *;
      rewrite ?length_cons, ?Nat2Z.inj_succ; repeat split; lia.
Qed.

Lemma scan_lines_first_raise g m lines s :
  match first_raise (map (line_outcome g m) lines) with
  | Some e => fst (scan_lines g m lines s) = Raise e
  | None => fst (scan_lines g m lines s) = Ok tt
  end.
Proof.
  revert s. induction lines as [|l r IH]; intros s; simpl; [reflexivity |].
  unfold mbind, line_outcome.
  rewrite <- (body_stateless g m l s init_state).
  destruct (body g m l s) as [[o|e] s1]; simpl; [apply IH | reflexivity].
Qed.

Lemma mapr_int_raise l e : mapr Py.int_r l = Raise e -> e = ValueError.
Proof.
  induction l as [|x r IH]; simpl; unfold rbind; intros H; [discriminate |].
  destruct (Py.int_r x) eqn:Ex.
  - destruct (mapr Py.int_r r); [discriminate |].
    injection H as <-. apply IH. reflexivity.
  - injection H as <-. unfold Py.int_r in Ex. destruct (Py.int x); congruence.
Qed.

Lemma count_pairs_raise maps c e :
  count_pairs maps c = Raise e -> e = ValueError \/ e = IndexError.
Proof.
  revert c. induction maps as [|pr rest IH]; intros c; simpl; [discriminate |].
  destruct (Py.split ":" pr) as [|k [|v ?]].
  - intros H. injection H. auto.
  - intros H. injection H. auto.
  - unfold rbind. destruct (Py.int_r v) eqn:Ev; [apply IH |].
    intros H. injection H as <-. unfold Py.int_r in Ev.
    destruct (Py.int v); [discriminate | injection Ev; auto].
Qed.

(** The exceptions a line can let escape the scan loop: [IndexError]
    (a mapping token without [:]), [ZeroDivisionError] (k-mer counts summing
    to zero) and the [NameError]s of the three free names; [ValueError] is
    always caught. *)
Theorem escaping_exceptions g m l e :
  line_outcome g m l = Raise e ->
  e = IndexError \/ e = ZeroDivisionError \/
  e = NameError "UNCLASSIFIED" \/ e = NameError "K_MER_SIZE" \/ e = NameError "scoring".
Proof.
  unfold line_outcome, body, derive, filter_push, except_ValueError, mbind, mret, lift,
    modify, mraise, global.
  cbv zeta. intros H.
  repeat (case_match; simpl in *; try discriminate);
  repeat match goal with
         | H : (_, _) = (_, _) |- _ => injection H; clear H; intros; subst
         end; simpl.
  all: repeat match goal with
         | H : Raise _ = Raise _ |- _ => injection H; clear H; intros; subst
         | H : Ok _ = Ok _ |- _ => injection H; clear H; intros; subst
         end.
  all: try discriminate.
  all: try tauto.
  all: match goal with
       | H : count_pairs _ _ = Raise _ |- _ =>
           destruct (count_pairs_raise _ _ _ H); discriminate
       | H : mapr Py.int_r _ = Raise _ |- _ =>
           pose proof (mapr_int_raise _ _ H); discriminate
       end.
Qed.

Lemma body_generic m l s r s' :
  body generic_globals m l s = (r, s') ->
  (r = Ok Errored /\ num_read s' = num_read s) \/ r = Raise (NameError "UNCLASSIFIED").
Proof.
  unfold body, derive, filter_push, except_ValueError, mbind, mret, lift,
    modify, mraise, global, generic_globals.
  cbv zeta. simpl UNCLASSIFIED. intros H.
  repeat (case_match; simpl in *; try discriminate);
  repeat match goal with
         | H : (_, _) = (_, _) |- _ => injection H; clear H; intros; subst
         end; simpl.
  all: repeat match goal with
         | H : Raise _ = Raise _ |- _ => injection H; clear H; intros; subst
         | H : Ok _ = Ok _ |- _ => injection H; clear H; intros; subst
         end.
  all: try discriminate.
  all: try (left; split; reflexivity).
  all: try (right; reflexivity).
  all: match goal with
       | H : mapr Py.int_r _ = Raise _ |- _ =>
           pose proof (mapr_int_raise _ _ H); discriminate
       end.
Qed.

Lemma scan_lines_generic m lines s r s' :
  scan_lines generic_globals m lines s = (r, s') ->
  (r = Ok tt /\ num_read s' = num_read s) \/ r = Raise (NameError "UNCLASSIFIED").
Proof.
  revert s. induction lines as [|l rest IH]; intros s H; simpl in H.
  - injection H as <- <-. auto.
  - unfold mbind in H.
    destruct (body generic_globals m l s) as [r1 s1] eqn:Hb.
    destruct (body_generic _ _ _ _ _ Hb) as [[-> Hn] | ->].
    + destruct (IH s1 H) as [[-> Hn'] | ->]; [left; split; [reflexivity | lia] | auto].
    + injection H as <- _. auto.
Qed.

(** With the module's free names as shipped, [read_generic_output] never
    returns: it raises the format error, [NameError] for [UNCLASSIFIED], or
    the no-sequence-read error. *)
Theorem shipped_module_never_returns log10 minscore file :
  read_generic_output log10 generic_globals minscore file = Raise ErrUnsupportedFormat \/
  read_generic_output log10 generic_globals minscore file = Raise (NameError "UNCLASSIFIED") \/
  read_generic_output log10 generic_globals minscore file = Raise ErrNoSequenceRead.
Proof.
  unfold read_generic_output, scan.
  destruct (negb _); [auto |].
  destruct (scan_lines generic_globals minscore (tl file) init_state) as [r s'] eqn:E.
  destruct (scan_lines_generic _ _ _ _ _ E) as [[-> Hn] | ->]; [| auto].
  simpl. rewrite Hn. simpl. auto.
Qed.

Lemma first_error_some {A} (f : string -> A -> result Q) l e :
  first_error f l = Some e -> exists k v, In (k, v) l /\ f k v = Raise e.
Proof.
  induction l as [|[k v] r IH]; simpl; [discriminate |].
  destruct (f k v) as [q|e'] eqn:E.
  - intros H. destruct (IH H) as (k' & v' & Hin & Hf). exists k', v'. auto.
  - intros H. injection H as <-. exists k, v. auto.
Qed.

Lemma dict_comp_dom {A} (f : string -> A -> result Q) (d : gmap string A) out k :
  dict_comp f d = Ok out -> (is_Some (out !! k) <-> is_Some (d !! k)).
Proof.
  intros H. destruct (d !! k) as [v|] eqn:Hk.
  - destruct (dict_comp_ok f d out k v H Hk) as (q & _ & Ho). rewrite Ho.
    split; intros _; eexists; reflexivity.
  - unfold dict_comp in H. destruct (first_error f (map_to_list d)); [discriminate |].
    injection H as <-. rewrite map_lookup_imap, Hk. simpl. split; intros []; discriminate.
Qed.

(** When some item raises and every raising item raises [e0], the
    comprehension raises [e0]. *)
Lemma dict_comp_raise {A} (f : string -> A -> result Q) (d : gmap string A) k v e0 :
  d !! k = Some v -> (exists e, f k v = Raise e) ->
  (forall k' v' e, d !! k' = Some v' -> f k' v' = Raise e -> e = e0) ->
  dict_comp f d = Raise e0.
Proof.
  intros Hk [e He] Hall. unfold dict_comp.
  destruct (first_error f (map_to_list d)) as [e'|] eqn:E.
  - destruct (first_error_some f _ _ E) as (k' & v' & Hin & Hf).
    apply list_elem_of_In, elem_of_map_to_list in Hin.
    rewrite (Hall k' v' e' Hin Hf). reflexivity.
  - destruct (first_error_none f _ E k v) as [q Hq].
    { apply list_elem_of_In, elem_of_map_to_list. exact Hk. }
    congruence.
Qed.

Lemma read_generic_output_ok_full log10 g minscore file stat counts out :
  read_generic_output log10 g minscore file = Ok (stat, counts, out) ->
  exists st w s,
    scan g minscore file = Ok (st, w) /\ scoring g = Some s /\
    num_read st <> 0 /\ retained st <> 0%nat /\
    stat = Stats.mk minscore (nt_read st) (all_length st) (all_scores st)
             (all_kmerel st) (num_read st) (num_uncl st) (retained st) /\
    counts = (fun l => List.length l) <$> all_scores st /\
    select_scores log10 s st = Ok out.
Proof.
  unfold read_generic_output. intros H.
  destruct (scan g minscore file) as [[st w]|e] eqn:Es; simpl in H; [| discriminate].
  destruct (Z.eqb (num_read st) 0) eqn:En; [discriminate |].
  destruct (Nat.eqb _ 0) eqn:Ef; [discriminate |].
  destruct (scoring g) as [s|] eqn:Eg; simpl in H; [| discriminate].
  destruct (select_scores log10 s st) as [o|e] eqn:Eo; simpl in H; [| discriminate].
  injection H as <- <- <-.
  exists st, w, s. apply Z.eqb_neq in En. apply Nat.eqb_neq in Ef.
  repeat split; assumption.
Qed.

Lemma body_counted g m l s o s' :
  body g m l s = (Ok o, s') -> o <> Errored -> length_parses l = true.
Proof.
  unfold body, derive, filter_push, except_ValueError, mbind, mret, lift,
    modify, mraise, global, length_parses, line_length.
  cbv zeta. intros H.
  repeat (case_match; simpl in *; try discriminate);
  repeat match goal with
         | H : (_, _) = (_, _) |- _ => injection H; clear H; intros; subst
         end; simpl.
  all: try discriminate.
  all: try reflexivity.
  all: try (intros Hne; congruence).
  all: exfalso; auto.
Qed.

Lemma scan_lines_filtered_bound g m lines s s' :
  scan_lines g m lines s = (Ok tt, s') ->
  Z.of_nat (retained s') + num_uncl s' - num_read s' <=
  Z.of_nat (retained s) + num_uncl s - num_read s.
Proof.
  revert s. induction lines as [|l r IH]; intros s H; simpl in H.
  - injection H as <-. lia.
  - unfold mbind in H.
    destruct (body g m l s) as [[o|e] s1] eqn:Hb; [| discriminate].
    specialize (IH s1 H).
    destruct (body_step _ _ _ _ _ _ Hb) as (B1 & _ & B3 & B4).
    destruct o.
    + simpl in B3, B4. destruct (line_length l); lia.
    + pose proof (body_counted _ _ _ _ _ _ Hb ltac:(discriminate)) as Hc.
      unfold length_parses in Hc. destruct (line_length l); [| discriminate].
      simpl in B3, B4. lia.
    + simpl in B3, B4. destruct (line_length l); lia.
    + pose proof (body_counted _ _ _ _ _ _ Hb ltac:(discriminate)) as Hc.
      unfold length_parses in Hc. destruct (line_length l); [| discriminate].
      simpl in B3, B4. lia.
Qed.

Lemma scan_filtered_bound g m file st w :
  scan g m file = Ok (st, w) ->
  (Z.of_nat (retained st) + num_uncl st <= num_read st)%Z.
Proof.
  unfold scan. destruct (negb _); [discriminate |].
  destruct (scan_lines g m (tl file) init_state) as [[[]|e] s'] eqn:E; [| discriminate].
  intros H. injection H as <- _.
  pose proof (scan_lines_filtered_bound _ _ _ _ _ E) as Hb.
  assert (H0 : retained init_state = 0%nat) by reflexivity.
  rewrite H0 in Hb. simpl in Hb. lia.
Qed.

(** The three maps have one domain, and every list is nonempty. *)
Lemma lists_agree_dom st tid :
  lists_agree st ->
  (is_Some (all_scores st !! tid) <-> is_Some (all_kmerel st !! tid)) /\
  (is_Some (all_scores st !! tid) <-> is_Some (all_length st !! tid)).
Proof.
  intros H. specialize (H tid).
  destruct (all_scores st !! tid), (all_kmerel st !! tid), (all_length st !! tid);
    try contradiction; split; split; intros; eauto; destruct H0; discriminate.
Qed.

Lemma filt_count_sum (d : gmap string (list Q)) :
  sum_list (snd <$> map_to_list ((fun l => List.length l) <$> d)) = filt_count d.
Proof.
  unfold filt_count. rewrite map_to_list_fmap.
  generalize (map_to_list d) as l.
  induction l as [|[k v] r IH]; [reflexivity |]. simpl. f_equal. exact IH.
Qed.

(** On return, at least one read passed, passed and unclassified reads
    together are at most the reads read, [counts] maps each taxon to the
    number of its retained reads (at least one), and these numbers add up
    to [seq_filt]. *)
Theorem read_generic_output_stats log10 g minscore file stat counts out :
  read_generic_output log10 g minscore file = Ok (stat, counts, out) ->
  (1 <= Stats.seq_filt stat)%nat /\
  Z.of_nat (Stats.seq_filt stat) + Stats.seq_unclas stat <= Stats.seq_read stat /\
  (forall tid, counts !! tid = (fun l => List.length l) <$> Stats.scores stat !! tid) /\
  (forall tid n, counts !! tid = Some n -> (1 <= n)%nat) /\
  sum_list (snd <$> map_to_list counts) = Stats.seq_filt stat.
Proof.
  intros H.
  destruct (read_generic_output_ok_full _ _ _ _ _ _ _ H)
    as (st & w & s & Hscan & Hs & Hn & Hr & -> & -> & _).
  pose proof (scan_filtered_bound _ _ _ _ _ Hscan) as Hb.
  pose proof (scan_lists_agree _ _ _ _ _ Hscan) as Ha.
  simpl. split; [lia |]. split; [exact Hb |]. split.
  { intros tid. apply lookup_fmap. }
  split.
  - intros tid n Hc. rewrite lookup_fmap in Hc. specialize (Ha tid).
    destruct (all_scores st !! tid) as [l|]; simpl in Hc; [| discriminate].
    injection Hc as <-.
    destruct (all_kmerel st !! tid), (all_length st !! tid); try contradiction.
    destruct Ha as (_ & _ & Hne). destruct l; [contradiction | simpl; lia].
  - apply filt_count_sum.
Qed.

Lemma lists_agree_some st tid ss :
  lists_agree st -> all_scores st !! tid = Some ss ->
  exists ks ls, all_kmerel st !! tid = Some ks /\ all_length st !! tid = Some ls /\
    ss <> [] /\ ks <> [] /\ map inject_Z ls <> [].
Proof.
  intros H Hs. specialize (H tid). rewrite Hs in H.
  destruct (all_kmerel st !! tid) as [ks|], (all_length st !! tid) as [ls|];
    try contradiction.
  destruct H as (H1 & H2 & Hne). exists ks, ls.
  split; [reflexivity |]. split; [reflexivity |]. split; [exact Hne |].
  destruct ss; [contradiction |].
  split; intros E; subst; simpl in *; [discriminate |].
  destruct ls; simpl in *; [lia | discriminate].
Qed.

(** On return, under a supported policy, the score of a taxon with
    retained reads is the mean of its shel, k-mer coverage or length list
    (or log10, or the NORMA ratio) as [policy_score] gives. *)
Theorem read_generic_output_score_values log10 g minscore file stat counts out s tid ss :
  scoring g = Some s ->
  read_generic_output log10 g minscore file = Ok (stat, counts, out) ->
  Stats.scores stat !! tid = Some ss ->
  exists ks ls,
    Stats.scores2 stat !! tid = Some ks /\ Stats.lens stat !! tid = Some ls /\
    out !! tid = policy_score log10 s ss ks ls.
Proof.
  intros Hg H Hss.
  destruct (read_generic_output_ok_full _ _ _ _ _ _ _ H)
    as (st & w & s' & Hscan & Hs & _ & _ & -> & -> & Hsel).
  rewrite Hg in Hs. injection Hs as <-. simpl in Hss |- *.
  destruct (lists_agree_some st tid ss (scan_lists_agree _ _ _ _ _ Hscan) Hss)
    as (ks & ls & Hks & Hls & Hne & Hkne & Hlne).
  exists ks, ls. split; [exact Hks |]. split; [exact Hls |].
  destruct s; simpl in Hsel |- *.
  - destruct (dict_comp_ok _ _ _ tid ss Hsel Hss) as (q & Hq & ->).
    rewrite (mean_ok _ _ Hne Hq). reflexivity.
  - destruct (dict_comp_ok _ _ _ tid ks Hsel Hks) as (q & Hq & ->).
    rewrite (mean_ok _ _ Hkne Hq). reflexivity.
  - destruct (dict_comp_ok _ _ _ tid ls Hsel Hls) as (q & Hq & ->).
    unfold len_mean in Hq. rewrite (mean_ok _ _ Hlne Hq). reflexivity.
  - destruct (dict_comp_ok _ _ _ tid ls Hsel Hls) as (q & Hq & ->).
    unfold len_mean in Hq.
    destruct (mean (map inject_Z ls)) as [m|] eqn:Em; simpl in Hq; [| discriminate].
    unfold py_log10 in Hq. destruct (Qle_bool m 0); [discriminate |].
    injection Hq as <-. rewrite (mean_ok _ _ Hlne Em). reflexivity.
  - destruct (dict_comp (fun _ l => mean l) (all_scores st)) as [scores|] eqn:E1;
      [| discriminate].
    destruct (dict_comp (fun _ l => len_mean l) (all_length st)) as [lengths|] eqn:E2;
      [| discriminate].
    simpl in Hsel.
    destruct (dict_comp_ok _ _ _ tid ss E1 Hss) as (qs & Hqs & Hs1).
    destruct (dict_comp_ok _ _ _ tid ls E2 Hls) as (ql & Hql & Hl).
    destruct (dict_comp_ok _ _ _ tid qs Hsel Hs1) as (q & Hq & ->).
    unfold norma_entry in Hq. rewrite Hl in Hq.
    destruct (Qeq_bool ql 0); [discriminate |]. injection Hq as <-.
    unfold len_mean in Hql.
    rewrite (mean_ok _ _ Hne Hqs), (mean_ok _ _ Hlne Hql). reflexivity.
  - discriminate.
Qed.

(** On return, the scores dict and [counts] have the same taxa. *)
Theorem read_generic_output_score_domain log10 g minscore file stat counts out tid :
  read_generic_output log10 g minscore file = Ok (stat, counts, out) ->
  is_Some (out !! tid) <-> is_Some (counts !! tid).
Proof.
  intros H.
  destruct (read_generic_output_ok_full _ _ _ _ _ _ _ H)
    as (st & w & s & Hscan & _ & _ & _ & _ & -> & Hsel).
  rewrite lookup_fmap, fmap_is_Some.
  destruct (lists_agree_dom st tid (scan_lists_agree _ _ _ _ _ Hscan)) as [Hk Hl].
  destruct s; simpl in Hsel.
  - exact (dict_comp_dom _ _ _ tid Hsel).
  - rewrite Hk. exact (dict_comp_dom _ _ _ tid Hsel).
  - rewrite Hl. exact (dict_comp_dom _ _ _ tid Hsel).
  - rewrite Hl. exact (dict_comp_dom _ _ _ tid Hsel).
  - destruct (dict_comp (fun _ l => mean l) (all_scores st)) as [scores|] eqn:E1;
      [| discriminate].
    destruct (dict_comp (fun _ l => len_mean l) (all_length st)) as [lengths|];
      [| discriminate].
    simpl in Hsel.
    rewrite (dict_comp_dom _ _ _ tid Hsel). exact (dict_comp_dom _ _ _ tid E1).
  - discriminate.
Qed.

Lemma dict_comp_all_ok {A} (f : string -> A -> result Q) (d : gmap string A) :
  (forall k v, d !! k = Some v -> exists q, f k v = Ok q) ->
  exists out, dict_comp f d = Ok out.
Proof.
  intros H. unfold dict_comp.
  destruct (first_error f (map_to_list d)) as [e|] eqn:E; [| eexists; reflexivity].
  destruct (first_error_some f _ _ E) as (k & v & Hin & Hf).
  apply list_elem_of_In, elem_of_map_to_list in Hin.
  destruct (H k v Hin) as [q Hq]. congruence.
Qed.

Lemma lists_agree_length_nonempty st tid ls :
  lists_agree st -> all_length st !! tid = Some ls -> map inject_Z ls <> [].
Proof.
  intros H Hl. specialize (H tid). rewrite Hl in H.
  destruct (all_scores st !! tid) as [ss|], (all_kmerel st !! tid); try contradiction.
  destruct H as (H1 & H2 & Hne). destruct ss; [contradiction |].
  destruct ls; simpl in *; [lia | discriminate].
Qed.

Lemma len_mean_ok ls : map inject_Z ls <> [] -> len_mean ls = Ok (Qavg (map inject_Z ls)).
Proof. unfold len_mean. destruct (map inject_Z ls); [contradiction | reflexivity]. Qed.

(** Under LOGLENGTH a retained taxon whose mean read length is not
    positive makes the call raise [ValueError] (math domain error), and
    under NORMA one with mean length zero makes it raise
    [ZeroDivisionError]. *)
Theorem nonpositive_mean_length_raises log10 g minscore file st w tid ls :
  scan g minscore file = Ok (st, w) -> num_read st <> 0 -> retained st <> 0%nat ->
  all_length st !! tid = Some ls ->
  (scoring g = Some LOGLENGTH -> (Qavg (map inject_Z ls) <= 0)%Q ->
   read_generic_output log10 g minscore file = Raise ValueError) /\
  (scoring g = Some NORMA -> (Qavg (map inject_Z ls) == 0)%Q ->
   read_generic_output log10 g minscore file = Raise ZeroDivisionError).
Proof.
  intros Hscan Hn Hr Hls.
  pose proof (scan_lists_agree _ _ _ _ _ Hscan) as Ha.
  assert (Hsel : forall s, scoring g = Some s ->
            read_generic_output log10 g minscore file = rbind (select_scores log10 s st)
              (fun out => Ok (Stats.mk minscore (nt_read st) (all_length st) (all_scores st)
                               (all_kmerel st) (num_read st) (num_uncl st) (retained st),
                             (fun l => List.length l) <$> all_scores st, out))).
  { intros s Hs. unfold read_generic_output. rewrite Hscan. simpl.
    apply Z.eqb_neq in Hn. rewrite Hn. unfold retained in Hr.
    apply Nat.eqb_neq in Hr. rewrite Hr. rewrite Hs. simpl.
    destruct (select_scores log10 s st); reflexivity. }
  split.
  - intros Hs Hle. rewrite (Hsel _ Hs). simpl.
    rewrite (dict_comp_raise _ _ tid ls ValueError Hls); [reflexivity | |].
    + exists ValueError. rewrite (len_mean_ok ls (lists_agree_length_nonempty _ _ _ Ha Hls)).
      simpl. unfold py_log10. apply Qle_bool_iff in Hle. rewrite Hle. reflexivity.
    + intros k v e Hk Hf.
      rewrite (len_mean_ok v (lists_agree_length_nonempty _ _ _ Ha Hk)) in Hf.
      simpl in Hf. unfold py_log10 in Hf.
      destruct (Qle_bool _ 0); [injection Hf; auto | discriminate].
  - intros Hs Hz. rewrite (Hsel _ Hs). simpl.
    destruct (dict_comp_all_ok (fun _ l => mean l) (all_scores st)) as [scores E1].
    { intros k v Hk. destruct (lists_agree_some _ _ _ Ha Hk) as (_ & _ & _ & _ & Hne & _ & _).
      destruct v; [contradiction |]. eexists; reflexivity. }
    destruct (dict_comp_all_ok (fun _ l => len_mean l) (all_length st)) as [lengths E2].
    { intros k v Hk. rewrite (len_mean_ok v (lists_agree_length_nonempty _ _ _ Ha Hk)).
      eexists; reflexivity. }
    rewrite E1, E2. simpl.
    destruct (lists_agree_dom st tid Ha) as [_ Hd].
    destruct (all_scores st !! tid) as [ss|] eqn:Hss;
      [| destruct (proj2 Hd ltac:(rewrite Hls; eexists; reflexivity)); discriminate].
    destruct (dict_comp_ok _ _ _ tid ss E1 Hss) as (qs & _ & Hqs).
    destruct (dict_comp_ok _ _ _ tid ls E2 Hls) as (ql & Hql & Hl).
    rewrite (len_mean_ok ls (lists_agree_length_nonempty _ _ _ Ha Hls)) in Hql.
    injection Hql as <-.
    rewrite (dict_comp_raise _ _ tid qs ZeroDivisionError Hqs); [reflexivity | |].
    + exists ZeroDivisionError. unfold norma_entry. rewrite Hl.
      apply Qeq_bool_iff in Hz. rewrite Hz. reflexivity.
    + intros k v e Hk Hf. unfold norma_entry in Hf.
      destruct (lengths !! k) eqn:Hlk.
      * destruct (Qeq_bool q 0); [injection Hf; auto | discriminate].
      * exfalso.
        destruct (lists_agree_dom st k Ha) as [_ Hdk].
        assert (Hsk : is_Some (all_scores st !! k)).
        { apply (dict_comp_dom _ _ _ k E1). rewrite Hk. eexists; reflexivity. }
        apply Hdk in Hsk. apply (dict_comp_dom _ _ _ k E2) in Hsk.
        rewrite Hlk in Hsk. destruct Hsk; discriminate.
Qed.

Lemma scan_ok_lines g m file st w :
  scan g m file = Ok (st, w) -> scan_lines g m (tl file) init_state = (Ok tt, st).
Proof.
  unfold scan. destruct (negb _); [discriminate |].
  destruct (scan_lines g m (tl file) init_state) as [[[]|e] s'] eqn:E; [| discriminate].
  intros H. injection H as <- _. reflexivity.
Qed.

(** After a completed scan: [num_read] is the number of lines whose
    length field parses (also lines later dropped as malformed),
    [nt_read] the sum of their lengths, [num_uncl] the number of
    unclassified lines and [retained] the number of lines kept. *)
Theorem scan_counts g minscore file st w :
  scan g minscore file = Ok (st, w) ->
  num_read st = Z.of_nat (List.length (List.filter length_parses (tl file))) /\
  nt_read st = nt_total (tl file) /\
  num_uncl st = Z.of_nat (outcome_count g minscore is_uncl (tl file)) /\
  retained st = outcome_count g minscore is_kept (tl file).
Proof.
  intros H. apply scan_ok_lines in H.
  destruct (scan_lines_counts _ _ _ _ _ H) as (H1 & H2 & H3 & H4).
  simpl in H1, H2, H3. rewrite H4.
  assert (H0 : retained init_state = 0%nat) by reflexivity.
  rewrite H0. repeat split; lia.
Qed.

(** With a five-column header, the scan raises exactly the exception of
    the first line, in file order, whose processing raises. *)
Theorem scan_aborts_at_first_raise g minscore file e :
  List.length (Py.split TAB (readline file)) = 5%nat ->
  (scan g minscore file = Raise e <->
   first_raise (map (line_outcome g minscore) (tl file)) = Some e).
Proof.
  intros Hh. unfold scan. apply Nat.eqb_eq in Hh. rewrite Hh. simpl.
  pose proof (scan_lines_first_raise g minscore (tl file) init_state) as Hf.
  destruct (scan_lines g minscore (tl file) init_state) as [r s'].
  destruct (first_raise _) as [e'|]; simpl in Hf; subst r.
  - split; intros H; injection H as <-; reflexivity.
  - split; intros H; discriminate.
Qed.




(** An empty file raises the format error; a file that is only a
    five-column header scans to the initial state and raises the
    no-sequence-read error. *)
Theorem empty_and_header_only_files log10 g minscore (header : string) :
  read_generic_output log10 g minscore [] = Raise ErrUnsupportedFormat /\
  (List.length (Py.split TAB header) = 5%nat ->
   scan g minscore [header] = Ok (init_state, false) /\
   read_generic_output log10 g minscore [header] = Raise ErrNoSequenceRead).
Proof.
  split; [vm_compute; reflexivity |].
  intros H. assert (Hs : scan g minscore [header] = Ok (init_state, false)).
  { unfold scan. simpl readline. apply Nat.eqb_eq in H. rewrite H. reflexivity. }
  split; [exact Hs |]. unfold read_generic_output. rewrite Hs. reflexivity.
Qed.

Lemma list_ascii_of_string_app (s1 s2 : string) :
  list_ascii_of_string (s1 ++ s2) = list_ascii_of_string s1 ++ list_ascii_of_string s2.
Proof. induction s1 as [|c s IH]; simpl; [reflexivity | rewrite IH; reflexivity]. Qed.

Lemma split_l_nonempty sep l : Py.split_l sep l <> [].
Proof.
  induction l as [|c r IH]; simpl; [discriminate |].
  destruct (Ascii.eqb c sep); [discriminate |].
  destruct (Py.split_l sep r); discriminate.
Qed.

Lemma split_l_app sep a b :
  Py.split_l sep (a ++ sep :: b) = Py.split_l sep a ++ Py.split_l sep b.
Proof.
  induction a as [|c r IH]; simpl.
  - rewrite Ascii.eqb_refl. reflexivity.
  - rewrite IH. destruct (Ascii.eqb c sep); [reflexivity |].
    pose proof (split_l_nonempty sep r) as Hne.
    destruct (Py.split_l sep r) as [|p ps]; [contradiction | reflexivity].
Qed.

Lemma split_l_nosep sep a :
  Forall (fun c => Ascii.eqb c sep = false) a -> Py.split_l sep a = [a].
Proof.
  induction 1 as [|c r Hc _ IH]; simpl; [reflexivity |].
  rewrite Hc, IH. reflexivity.
Qed.

Lemma lstrip_nospace l : Forall (fun c => Py.is_space c = false) l -> Py.lstrip_l l = l.
Proof. destruct 1 as [|c r Hc _]; simpl; [reflexivity | rewrite Hc; reflexivity]. Qed.

Lemma strip_nospace (s : string) :
  Forall (fun c => Py.is_space c = false) (list_ascii_of_string s) -> Py.strip s = s.
Proof.
  intros H. unfold Py.strip. rewrite (lstrip_nospace _ H).
  rewrite (lstrip_nospace (rev _)) by (apply Forall_rev; exact H).
  rewrite rev_involutive. apply string_of_list_ascii_of_string.
Qed.

Lemma plain_clean s : plain s = true -> Forall clean_char (list_ascii_of_string s).
Proof.
  unfold plain. intros H. apply List.Forall_forall. intros c Hc.
  apply forallb_forall with (x := c) in H; [| exact Hc].
  apply andb_prop in H as [H H3]. apply andb_prop in H as [H1 H2].
  apply negb_true_iff in H1, H2, H3. repeat split; assumption.
Qed.

Lemma digit_clean c : Py.is_digit c = true -> clean_char c.
Proof.
  unfold Py.is_digit, clean_char, Py.is_space. intros H.
  apply andb_prop in H as [H1 H2]. apply Nat.leb_le in H1, H2.
  repeat split.
  - destruct (Ascii.eqb c ",") eqn:E; [| reflexivity].
    apply Ascii.eqb_eq in E. subst. vm_compute in H1. lia.
  - destruct (Ascii.eqb c ":") eqn:E; [| reflexivity].
    apply Ascii.eqb_eq in E. subst. vm_compute in H2. lia.
  - assert (E1 : (nat_of_ascii c <=? 13)%nat = false) by (apply Nat.leb_gt; lia).
    assert (E2 : (nat_of_ascii c <=? 32)%nat = false) by (apply Nat.leb_gt; lia).
    rewrite E1, E2, !andb_false_r. reflexivity.
Qed.

Lemma numeral_clean s :
  numeral s = true ->
  list_ascii_of_string s <> [] /\ Forall (fun c => Py.is_digit c = true) (list_ascii_of_string s)
  /\ Forall clean_char (list_ascii_of_string s).
Proof.
  unfold numeral. destruct (list_ascii_of_string s) as [|c r]; [discriminate |].
  intros H. split; [discriminate |].
  assert (Hd : Forall (fun c => Py.is_digit c = true) (c :: r)).
  { apply List.Forall_forall. intros x Hx. exact (proj1 (forallb_forall _ _) H x Hx). }
  split; [exact Hd |]. eapply List.Forall_impl; [| exact Hd]. exact digit_clean.
Qed.

Lemma block_chars (k v : string) :
  list_ascii_of_string (k ++ String ":" v) =
  list_ascii_of_string k ++ ":"%char :: list_ascii_of_string v.
Proof. rewrite list_ascii_of_string_app. reflexivity. Qed.

Lemma block_parts (k v : string) :
  Forall clean_char (list_ascii_of_string k) -> Forall clean_char (list_ascii_of_string v) ->
  Forall (fun c => Ascii.eqb c "," = false) (list_ascii_of_string (k ++ String ":" v)) /\
  Py.strip (k ++ String ":" v) = (k ++ String ":" v)%string /\
  Py.split ":" (k ++ String ":" v) = [k; v] /\ Py.strip k = k /\ Py.strip v = v.
Proof.
  intros Hk Hv. rewrite block_chars.
  assert (Hsp : forall l, Forall clean_char l -> Forall (fun c => Py.is_space c = false) l).
  { intros l Hl. eapply List.Forall_impl; [| exact Hl]. intros c (_ & _ & H). exact H. }
  assert (Hs : forall s, Forall clean_char (list_ascii_of_string s) -> Py.strip s = s).
  { intros s Hs. apply strip_nospace. apply Hsp. exact Hs. }
  split; [| split; [| split; [| split]]].
  - apply Forall_app. split; [| constructor; [reflexivity |]];
      (eapply List.Forall_impl; [| eassumption]); intros c (H & _); exact H.
  - apply strip_nospace. rewrite block_chars. apply Forall_app. split; [exact (Hsp _ Hk) |].
    constructor; [reflexivity | exact (Hsp _ Hv)].
  - unfold Py.split. rewrite block_chars, split_l_app.
    rewrite !(split_l_nosep ":"%char);
      try (eapply List.Forall_impl; [| eassumption]; intros c (_ & H & _); exact H).
    simpl. rewrite !string_of_list_ascii_of_string. reflexivity.
  - exact (Hs k Hk).
  - exact (Hs v Hv).
Qed.

Lemma split_join sep (blocks : list string) :
  blocks <> [] ->
  Forall (fun b => Forall (fun c => Ascii.eqb c sep = false) (list_ascii_of_string b)) blocks ->
  Py.split sep (join_with sep blocks) = blocks.
Proof.
  intros Hne H. induction H as [|b r Hb Hr IH]; [contradiction |].
  destruct r as [|b' r'].
  - unfold Py.split. simpl. rewrite (split_l_nosep _ _ Hb). simpl.
    rewrite string_of_list_ascii_of_string. reflexivity.
  - change (join_with sep (b :: b' :: r')) with (b ++ String sep (join_with sep (b' :: r')))%string.
    unfold Py.split in *. rewrite list_ascii_of_string_app. cbn [list_ascii_of_string].
    rewrite split_l_app, (split_l_nosep _ _ Hb). cbn [app map].
    rewrite string_of_list_ascii_of_string. f_equal. apply IH. discriminate.
Qed.

Lemma digits_aux_digits acc r :
  Forall (fun c => Py.is_digit c = true) r ->
  Py.digits_aux acc r = Some (fold_left (fun acc c => acc * 10 + Py.digit c) r acc).
Proof.
  intros H. revert acc. induction H as [|c r Hc _ IH]; intros acc; simpl; [reflexivity |].
  rewrite Hc. apply IH.
Qed.

Lemma int_numeral s : numeral s = true -> Py.int s = Some (decimal s).
Proof.
  intros H. destruct (numeral_clean s H) as (Hne & Hd & Hc).
  unfold Py.int, decimal.
  rewrite strip_nospace by (eapply List.Forall_impl; [| exact Hc]; intros c (_ & _ & E); exact E).
  destruct (list_ascii_of_string s) as [|c r]; [contradiction |].
  inversion Hd as [|? ? Hc0 Hr]; subst.
  assert (Em : Ascii.eqb c "-" = false).
  { destruct (Ascii.eqb c "-") eqn:E; [apply Ascii.eqb_eq in E; subst; discriminate | reflexivity]. }
  assert (Ep : Ascii.eqb c "+" = false).
  { destruct (Ascii.eqb c "+") eqn:E; [apply Ascii.eqb_eq in E; subst; discriminate | reflexivity]. }
  rewrite Em, Ep. unfold Py.parse_uint. rewrite Hc0.
  rewrite digits_aux_digits by exact Hr. simpl. rewrite Z.add_0_l. reflexivity.
Qed.

Lemma fmt_pairs_blocks kvs :
  Forall (fun kv => Forall clean_char (list_ascii_of_string kv.1) /\
                    Forall clean_char (list_ascii_of_string kv.2)) kvs ->
  GenericFormat.fmt_pairs (map Py.strip (map mk_block kvs)) = Ok kvs.
Proof.
  induction 1 as [|[k v] r [Hk Hv] _ IH]; simpl; [reflexivity |].
  destruct (block_parts k v Hk Hv) as (_ & Hs & Hsp & Hsk & Hsv).
  unfold mk_block at 1. simpl. rewrite Hs, Hsp. simpl. rewrite IH. simpl.
  rewrite Hsk, Hsv. reflexivity.
Qed.

Lemma find_key_unique (l : list (string * string)) k v :
  List.NoDup (map fst l) -> In (k, v) l ->
  find (fun p => String.eqb (fst p) k) l = Some (k, v).
Proof.
  induction l as [|[k' v'] r IH]; simpl; [contradiction |].
  intros Hnd Hin. inversion Hnd as [|? ? Hnot Hnd']; subst.
  destruct Hin as [E | Hin].
  - injection E as -> ->. rewrite String.eqb_refl. reflexivity.
  - destruct (String.eqb k' k) eqn:E.
    + apply String.eqb_eq in E. subst. exfalso. apply Hnot.
      apply (in_map fst _ _ Hin).
    + exact (IH Hnd' Hin).
Qed.

Lemma fmt_get_unique kvs k v :
  List.NoDup (map fst kvs) -> In (k, v) kvs -> GenericFormat.fmt_get kvs k = Ok v.
Proof.
  intros Hnd Hin. unfold GenericFormat.fmt_get.
  rewrite (find_key_unique (rev kvs) k v).
  - reflexivity.
  - rewrite map_rev. apply NoDup_rev. exact Hnd.
  - apply in_rev. rewrite rev_involutive. exact Hin.
Qed.

(** A format string of the five blocks [TYP:], [TID:], [LEN:], [SCO:],
    [UNC:], in any order, with plain type and unclassified-mark values and
    decimal numerals for the three columns, builds the format with those fields. *)
Theorem format_fields_any_order (y dt dl ds u : string) (blocks : list string) :
  plain y = true -> numeral dt = true -> numeral dl = true -> numeral ds = true ->
  plain u = true ->
  Permutation blocks [("TYP:" ++ y)%string; ("TID:" ++ dt)%string; ("LEN:" ++ dl)%string;
                      ("SCO:" ++ ds)%string; ("UNC:" ++ u)%string] ->
  GenericFormat.init (join_with "," blocks) =
  Ok (GenericFormat.mk (GenericType_getitem (Py.upper y))
        (decimal dt) (decimal dl) (decimal ds) u).
Proof.
  intros Hy Hdt Hdl Hds Hu Hp.
  set (kvs0 := [("TYP", y); ("TID", dt); ("LEN", dl); ("SCO", ds); ("UNC", u)]%string).
  change (Permutation blocks (map mk_block kvs0)) in Hp.
  destruct (Permutation_map_inv _ _ Hp) as (kvs & -> & Hperm).
  assert (Hclean0 : Forall (fun kv => Forall clean_char (list_ascii_of_string kv.1) /\
                                      Forall clean_char (list_ascii_of_string kv.2)) kvs0).
  { pose proof (plain_clean _ Hy). pose proof (plain_clean _ Hu).
    pose proof (numeral_clean _ Hdt) as (_ & _ & ?).
    pose proof (numeral_clean _ Hdl) as (_ & _ & ?).
    pose proof (numeral_clean _ Hds) as (_ & _ & ?).
    repeat constructor; simpl; auto; repeat constructor; reflexivity. }
  assert (Hclean : Forall (fun kv => Forall clean_char (list_ascii_of_string kv.1) /\
                                     Forall clean_char (list_ascii_of_string kv.2)) kvs)
    by (eapply Permutation_Forall; eassumption).
  assert (Hnd : List.NoDup (map fst kvs)).
  { apply (Permutation_NoDup (Permutation_map fst Hperm)).
    repeat constructor; simpl; intuition discriminate. }
  assert (Hin : forall kv, In kv kvs0 -> In kv kvs)
    by (intros kv H; exact (Permutation_in _ Hperm H)).
  assert (Hsplit : Py.split "," (join_with "," (map mk_block kvs)) = map mk_block kvs).
  { apply split_join.
    - intros E. apply map_eq_nil in E. subst. apply Permutation_sym, Permutation_nil in Hperm. discriminate.
    - apply Forall_map. eapply List.Forall_impl; [| exact Hclean].
      intros [k v] [Hk Hv]. exact (proj1 (block_parts k v Hk Hv)). }
  unfold GenericFormat.init. rewrite Hsplit, (fmt_pairs_blocks _ Hclean). simpl.
  rewrite (fmt_get_unique kvs "TYP" y Hnd (Hin ("TYP"%string, y) ltac:(simpl; tauto))). simpl.
  rewrite (fmt_get_unique kvs "TID" dt Hnd (Hin ("TID"%string, dt) ltac:(simpl; tauto))). simpl.
  unfold Py.int_r. rewrite (int_numeral _ Hdt). simpl.
  rewrite (fmt_get_unique kvs "LEN" dl Hnd (Hin ("LEN"%string, dl) ltac:(simpl; tauto))). simpl.
  rewrite (int_numeral _ Hdl). simpl.
  rewrite (fmt_get_unique kvs "SCO" ds Hnd (Hin ("SCO"%string, ds) ltac:(simpl; tauto))). simpl.
  rewrite (int_numeral _ Hds). simpl.
  rewrite (fmt_get_unique kvs "UNC" u Hnd (Hin ("UNC"%string, u) ltac:(simpl; tauto))). simpl.
  reflexivity.
Qed.

Lemma fmt_pairs_malformed bs :
  Exists (fun b => malformed_block b = true) bs -> GenericFormat.fmt_pairs bs = Raise IndexError.
Proof.
  induction 1 as [b r Hb | b r _ IH]; simpl.
  - unfold malformed_block in Hb.
    destruct (Py.split ":" b) as [|k [|v ?]]; [reflexivity | reflexivity | simpl in Hb; discriminate].
  - destruct (Py.split ":" b) as [|k [|v ?]]; [reflexivity | reflexivity |].
    rewrite IH. reflexivity.
Qed.

(** A format string with a block that has no [:] (an empty block, as from a
    trailing comma, included) raises [IndexError]. *)
Theorem malformed_block_index_error (format : string) :
  Exists (fun b => malformed_block (Py.strip b) = true) (Py.split "," format) ->
  GenericFormat.init format = Raise IndexError.
Proof.
  intros H. unfold GenericFormat.init. cbv zeta.
  rewrite fmt_pairs_malformed; [reflexivity |].
  apply Exists_map. exact H.
Qed.

Lemma fmt_pairs_app a b :
  GenericFormat.fmt_pairs (a ++ b) =
  rbind (GenericFormat.fmt_pairs a) (fun p => rbind (GenericFormat.fmt_pairs b) (fun q => Ok (p ++ q))).
Proof.
  induction a as [|x r IH]; simpl.
  - destruct (GenericFormat.fmt_pairs b); reflexivity.
  - destruct (Py.split ":" x) as [|k [|v ?]]; try reflexivity.
    rewrite IH. destruct (GenericFormat.fmt_pairs r); simpl; [| reflexivity].
    destruct (GenericFormat.fmt_pairs b); reflexivity.
Qed.

Lemma fmt_get_snoc p k v j :
  GenericFormat.fmt_get (p ++ [(k, v)]) j =
  if String.eqb k j then Ok v else GenericFormat.fmt_get p j.
Proof.
  unfold GenericFormat.fmt_get. rewrite rev_app_distr. simpl.
  destruct (String.eqb k j); reflexivity.
Qed.

(** When a key is repeated, the last occurrence counts: appending
    [,TID:d] to a valid format string replaces its taxid column. *)
Theorem repeated_key_last_wins (format d : string) (t : GenericFormat.t) :
  GenericFormat.init format = Ok t -> numeral d = true ->
  GenericFormat.init (format ++ ",TID:" ++ d) =
  Ok (GenericFormat.mk (GenericFormat.typ t) (decimal d) (GenericFormat.len t)
        (GenericFormat.sco t) (GenericFormat.unc t)).
Proof.
  intros H Hd.
  destruct (numeral_clean d Hd) as (_ & _ & Hc).
  assert (Hk : Forall clean_char (list_ascii_of_string "TID")) by (repeat constructor).
  destruct (block_parts "TID" d Hk Hc) as (Hnc & Hs & Hsp & _ & Hsd).
  assert (Hsplit : Py.split "," (format ++ ",TID:" ++ d) =
                   Py.split "," format ++ ["TID:" ++ d]%string).
  { unfold Py.split. rewrite list_ascii_of_string_app.
    change (list_ascii_of_string (",TID:" ++ d)%string)
      with (","%char :: list_ascii_of_string ("TID" ++ String ":" d)%string).
    rewrite split_l_app, map_app. f_equal.
    rewrite (split_l_nosep _ _ Hnc). simpl. rewrite string_of_list_ascii_of_string.
    reflexivity. }
  unfold GenericFormat.init in *. cbv zeta in *.
  rewrite Hsplit, map_app, fmt_pairs_app. simpl map. 
  change ("TID:" ++ d)%string with ("TID" ++ String ":" d)%string.
  rewrite Hs.
  assert (Hb : GenericFormat.fmt_pairs [("TID" ++ String ":" d)%string] = Ok [("TID"%string, d)]).
  { cbn [GenericFormat.fmt_pairs]. rewrite Hsp. cbn [rbind]. rewrite Hsd. reflexivity. }
  rewrite Hb.
  destruct (GenericFormat.fmt_pairs (map Py.strip (Py.split "," format))) as [p|e];
    simpl in *; [| discriminate].
  rewrite !fmt_get_snoc. simpl.
  destruct (GenericFormat.fmt_get p "TYP") as [y|e]; simpl in *; [| discriminate].
  destruct (GenericFormat.fmt_get p "TID") as [x|e]; simpl in *; [| discriminate].
  destruct (Py.int_r x) as [xi|e]; simpl in *; [| discriminate].
  unfold Py.int_r at 1. rewrite (int_numeral _ Hd). simpl.
  destruct (GenericFormat.fmt_get p "LEN") as [x2|e]; simpl in *; [| discriminate].
  destruct (Py.int_r x2) as [li|e]; simpl in *; [| discriminate].
  destruct (GenericFormat.fmt_get p "SCO") as [x3|e]; simpl in *; [| discriminate].
  destruct (Py.int_r x3) as [si|e]; simpl in *; [| discriminate].
  destruct (GenericFormat.fmt_get p "UNC") as [x4|e]; simpl in *; [| discriminate].
  injection H as <-. reflexivity.
Qed.

Lemma string_compare_le_trans s t u :
  String.compare s t <> Gt -> String.compare t u <> Gt -> String.compare s u <> Gt.
Proof.
  revert t u. induction s as [|c s IH]; intros t u H1 H2.
  - destruct u; discriminate.
  - destruct t as [|c2 t]; [simpl in H1; congruence |].
    destruct u as [|c3 u]; [simpl in H2; congruence |].
    simpl in *. unfold Ascii.compare in *.
    destruct (N.compare_spec (N_of_ascii c) (N_of_ascii c2)) as [E1|E1|E1];
      try congruence;
    destruct (N.compare_spec (N_of_ascii c2) (N_of_ascii c3)) as [E2|E2|E2];
      try congruence;
    destruct (N.compare_spec (N_of_ascii c) (N_of_ascii c3)) as [E3|E3|E3];
      try congruence; try lia.
    exact (IH _ _ H1 H2).
Qed.

#[global] Instance py_str_le_trans : Transitive py_str_le.
Proof.
  intros s t u. unfold py_str_le, String.leb.
  pose proof (string_compare_le_trans s t u) as H.
  destruct (String.compare s t), (String.compare t u), (String.compare s u);
    intuition congruence.
Qed.

#[global] Instance py_str_le_total : Total py_str_le.
Proof. intros s t. exact (String.leb_total s t). Qed.

#[global] Instance py_str_le_antisymm : AntiSymm (=) py_str_le.
Proof. intros s t H1 H2. exact (String.leb_antisym s t H1 H2). Qed.

Lemma fold_append_selected ext d names acc :
  fold_left (fun acc fil => if selected ext fil then acc ++ [entry_path d fil] else acc)
    names acc = acc ++ map (entry_path d) (List.filter (selected ext) names).
Proof.
  revert acc. induction names as [|n r IH]; intros acc; simpl.
  - rewrite app_nil_r. reflexivity.
  - destruct (selected ext n); rewrite IH; [rewrite <- app_assoc | ]; reflexivity.
Qed.

Lemma select_kraken_inputs_ok scandir d rest ext names :
  scandir d = Ok names ->
  select_kraken_inputs scandir (d :: rest) ext =
  (Ok tt, merge_sort py_str_le (map (entry_path d) (List.filter (selected ext) names))).
Proof.
  intros H. unfold select_kraken_inputs. rewrite H. cbv zeta.
  rewrite fold_append_selected. reflexivity.
Qed.

(** When the directory can be listed, the list ends up sorted and holds
    exactly the entries not starting with [.] and ending with [ext], each
    joined to the directory unless it is [.]. *)
Theorem select_kraken_inputs_sorted_selection scandir d rest ext names :
  scandir d = Ok names ->
  exists out,
    select_kraken_inputs scandir (d :: rest) ext = (Ok tt, out) /\
    Sorted py_str_le out /\
    (forall x, In x out <->
       exists n, In n names /\ str_startswith n "." = false /\
                 str_endswith n ext = true /\ x = entry_path d n).
Proof.
  intros H. eexists. split; [exact (select_kraken_inputs_ok _ _ _ _ _ H) |].
  split; [apply (Sorted_merge_sort py_str_le) |].
  intros x. pose proof (merge_sort_Permutation py_str_le
    (map (entry_path d) (List.filter (selected ext) names))) as Hp.
  split.
  - intros Hx. apply (Permutation_in _ Hp) in Hx.
    apply in_map_iff in Hx as (n & <- & Hn). apply filter_In in Hn as [Hn Hs].
    unfold selected in Hs. apply andb_prop in Hs as [H1 H2]. apply negb_true_iff in H1.
    exists n. auto.
  - intros (n & Hn & H1 & H2 & ->).
    apply (Permutation_in _ (Permutation_sym Hp)).
    apply in_map. apply filter_In. split; [exact Hn |].
    unfold selected. rewrite H1, H2. reflexivity.
Qed.

Lemma Permutation_List_filter {A} (f : A -> bool) (l l' : list A) :
  Permutation l l' -> Permutation (List.filter f l) (List.filter f l').
Proof.
  induction 1 as [|x l l' _ IH|x y l|l l' l'' _ IH1 _ IH2]; simpl.
  - constructor.
  - destruct (f x); [constructor |]; exact IH.
  - destruct (f x), (f y); try constructor; reflexivity.
  - etransitivity; eassumption.
Qed.

(** The resulting list does not depend on the order in which [os.scandir]
    yields the entries, nor on the list's other items. *)
Theorem select_kraken_inputs_order_independent scandir scandir' d rest rest' ext names names' :
  scandir d = Ok names -> scandir' d = Ok names' -> Permutation names names' ->
  select_kraken_inputs scandir (d :: rest) ext = select_kraken_inputs scandir' (d :: rest') ext.
Proof.
  intros H H' Hp.
  rewrite (select_kraken_inputs_ok _ _ _ _ _ H), (select_kraken_inputs_ok _ _ _ _ _ H').
  f_equal. apply (Sorted_unique py_str_le); [apply (Sorted_merge_sort py_str_le) | apply (Sorted_merge_sort py_str_le) |].
  rewrite !merge_sort_Permutation.
  apply Permutation_map. apply Permutation_List_filter. exact Hp.
Qed.


(** Witnesses: the theorems above at concrete inputs. *)

Lemma scan_counts_witness :
  exists st w,
    scan bound_globals None malformed_map_file = Ok (st, w) /\
    line_outcome bound_globals None bad_map_line = Ok Errored /\
    num_read st = 2 /\ nt_read st = 150 /\ num_uncl st = 0 /\ retained st = 1%nat.
Proof.
  destruct (scan bound_globals None malformed_map_file) as [[st w]|e] eqn:E;
    [| vm_compute in E; discriminate].
  exists st, w. destruct (scan_counts _ _ _ _ _ E) as (H1 & H2 & H3 & H4).
  split; [reflexivity |]. split; [vm_compute; reflexivity |].
  rewrite H1, H2, H3, H4. vm_compute. repeat split.
Defined.

Lemma scan_aborts_at_first_raise_witness :
  List.length (Py.split TAB (readline [header5; zero_total_line; line_9606])) = 5%nat /\
  scan bound_globals None [header5; zero_total_line; line_9606] = Raise ZeroDivisionError.
Proof.
  assert (Hh : List.length (Py.split TAB (readline [header5; zero_total_line; line_9606]))
               = 5%nat) by (vm_compute; reflexivity).
  split; [exact Hh |].
  apply (proj2 (scan_aborts_at_first_raise bound_globals None _ ZeroDivisionError Hh)).
  vm_compute. reflexivity.
Defined.

Lemma escaping_exceptions_witness :
  line_outcome bound_globals None zero_total_line = Raise ZeroDivisionError /\
  (ZeroDivisionError = IndexError \/ ZeroDivisionError = ZeroDivisionError \/
   ZeroDivisionError = NameError "UNCLASSIFIED" \/ ZeroDivisionError = NameError "K_MER_SIZE" \/
   ZeroDivisionError = NameError "scoring").
Proof.
  assert (H : line_outcome bound_globals None zero_total_line = Raise ZeroDivisionError)
    by (vm_compute; reflexivity).
  split; [exact H |]. exact (escaping_exceptions _ _ _ _ H).
Defined.


Lemma empty_and_header_only_files_witness :
  List.length (Py.split TAB header5) = 5%nat /\
  scan bound_globals None [header5] = Ok (init_state, false) /\
  read_generic_output (fun x => x) bound_globals None [header5] = Raise ErrNoSequenceRead.
Proof.
  assert (H : List.length (Py.split TAB header5) = 5%nat) by (vm_compute; reflexivity).
  split; [exact H |].
  exact (proj2 (empty_and_header_only_files (fun x => x) bound_globals None header5) H).
Defined.

Lemma read_generic_output_stats_witness :
  exists stat counts out,
    read_generic_output (fun x => x) bound_globals None two_9606_file =
      Ok (stat, counts, out) /\
    Stats.seq_filt stat = 2%nat /\ counts !! "9606"%string = Some 2%nat /\
    (1 <= Stats.seq_filt stat)%nat /\
    Z.of_nat (Stats.seq_filt stat) + Stats.seq_unclas stat <= Stats.seq_read stat /\
    (forall tid, counts !! tid = (fun l => List.length l) <$> Stats.scores stat !! tid) /\
    (forall tid n, counts !! tid = Some n -> (1 <= n)%nat) /\
    sum_list (snd <$> map_to_list counts) = Stats.seq_filt stat.
Proof.
  destruct (read_generic_output (fun x => x) bound_globals None two_9606_file)
    as [[[stat counts] out]|e] eqn:E; [| vm_compute in E; discriminate].
  exists stat, counts, out. split; [reflexivity |].
  pose proof (read_generic_output_stats _ _ _ _ _ _ _ E) as Hs.
  vm_compute in E. injection E as <- <- <-.
  split; [reflexivity |]. split; [reflexivity |]. exact Hs.
Defined.

Lemma read_generic_output_score_values_witness :
  exists stat counts out ss ks ls,
    scoring bound_globals = Some SHEL /\
    read_generic_output (fun x => x) bound_globals None two_9606_file =
      Ok (stat, counts, out) /\
    Stats.scores stat !! "9606"%string = Some ss /\
    Stats.scores2 stat !! "9606"%string = Some ks /\
    Stats.lens stat !! "9606"%string = Some ls /\
    out !! "9606"%string = policy_score (fun x => x) SHEL ss ks ls.
Proof.
  destruct (read_generic_output (fun x => x) bound_globals None two_9606_file)
    as [[[stat counts] out]|e] eqn:E; [| vm_compute in E; discriminate].
  destruct (Stats.scores stat !! "9606"%string) as [ss|] eqn:Hss;
    [| vm_compute in E; injection E as <- _ _; vm_compute in Hss; discriminate].
  destruct (read_generic_output_score_values (fun x => x) bound_globals None two_9606_file
              stat counts out SHEL "9606" ss eq_refl E Hss) as (ks & ls & Hks & Hls & Ho).
  exists stat, counts, out, ss, ks, ls. auto 7.
Defined.

Lemma read_generic_output_score_domain_witness :
  exists stat counts out,
    read_generic_output (fun x => x) norma_globals None two_9606_file =
      Ok (stat, counts, out) /\
    (is_Some (out !! "9606"%string) <-> is_Some (counts !! "9606"%string)) /\
    is_Some (counts !! "9606"%string).
Proof.
  destruct (read_generic_output (fun x => x) norma_globals None two_9606_file)
    as [[[stat counts] out]|e] eqn:E; [| vm_compute in E; discriminate].
  exists stat, counts, out. split; [reflexivity |].
  pose proof (read_generic_output_score_domain _ _ _ _ _ _ _ "9606" E) as Hd.
  split; [exact Hd |].
  vm_compute in E. injection E as _ <- _. eexists. vm_compute. reflexivity.
Defined.

Lemma nonpositive_mean_length_raises_witness :
  read_generic_output (fun x => x) loglength_globals None zero_length_file = Raise ValueError /\
  read_generic_output (fun x => x) norma_globals None zero_length_file = Raise ZeroDivisionError.
Proof.
  split.
  - destruct (scan loglength_globals None zero_length_file) as [[st w]|e] eqn:E;
      [| vm_compute in E; discriminate].
    destruct (all_length st !! "9606"%string) as [ls|] eqn:Hls;
      [| vm_compute in E; injection E as <- _; vm_compute in Hls; discriminate].
    assert (Hn : num_read st <> 0) by (vm_compute in E; injection E as <- _; vm_compute; discriminate).
    assert (Hr : retained st <> 0%nat) by (vm_compute in E; injection E as <- _; vm_compute; discriminate).
    apply (proj1 (nonpositive_mean_length_raises (fun x => x) _ _ _ st w "9606" ls E Hn Hr Hls)
             eq_refl).
    vm_compute in E. injection E as <- _. vm_compute in Hls. injection Hls as <-.
    vm_compute. discriminate.
  - destruct (scan norma_globals None zero_length_file) as [[st w]|e] eqn:E;
      [| vm_compute in E; discriminate].
    destruct (all_length st !! "9606"%string) as [ls|] eqn:Hls;
      [| vm_compute in E; injection E as <- _; vm_compute in Hls; discriminate].
    assert (Hn : num_read st <> 0) by (vm_compute in E; injection E as <- _; vm_compute; discriminate).
    assert (Hr : retained st <> 0%nat) by (vm_compute in E; injection E as <- _; vm_compute; discriminate).
    apply (proj2 (nonpositive_mean_length_raises (fun x => x) _ _ _ st w "9606" ls E Hn Hr Hls)
             eq_refl).
    vm_compute in E. injection E as <- _. vm_compute in Hls. injection Hls as <-.
    reflexivity.
Defined.

Lemma format_fields_any_order_witness :
  GenericFormat.init (join_with "," ["UNC:U"; "SCO:3"; "TYP:tsv"; "LEN:2"; "TID:1"]%string) =
  Ok (GenericFormat.mk (Some TSV) 1 2 3 "U").
Proof.
  assert (Hp : Permutation ["UNC:U"; "SCO:3"; "TYP:tsv"; "LEN:2"; "TID:1"]%string
                 [("TYP:" ++ "tsv")%string; ("TID:" ++ "1")%string; ("LEN:" ++ "2")%string;
                  ("SCO:" ++ "3")%string; ("UNC:" ++ "U")%string])
    by (apply (bool_decide_unpack _); vm_compute; reflexivity).
  exact (format_fields_any_order "tsv" "1" "2" "3" "U" _
           eq_refl eq_refl eq_refl eq_refl eq_refl Hp).
Defined.

Lemma malformed_block_index_error_witness :
  Exists (fun b => malformed_block (Py.strip b) = true)
    (Py.split "," "TYP:CSV,TID:1,LEN:2,SCO:3,UNC:U,") /\
  GenericFormat.init "TYP:CSV,TID:1,LEN:2,SCO:3,UNC:U," = Raise IndexError.
Proof.
  assert (H : Exists (fun b => malformed_block (Py.strip b) = true)
                (Py.split "," "TYP:CSV,TID:1,LEN:2,SCO:3,UNC:U,"))
    by (apply (bool_decide_unpack _); vm_compute; reflexivity).
  split; [exact H |]. exact (malformed_block_index_error _ H).
Defined.

Lemma repeated_key_last_wins_witness :
  GenericFormat.init tsv_format = Ok (GenericFormat.mk (Some TSV) 1 2 3 "U") /\
  GenericFormat.init (tsv_format ++ ",TID:" ++ "7") =
    Ok (GenericFormat.mk (Some TSV) 7 2 3 "U").
Proof.
  assert (H : GenericFormat.init tsv_format = Ok (GenericFormat.mk (Some TSV) 1 2 3 "U"))
    by (vm_compute; reflexivity).
  split; [exact H |]. exact (repeated_key_last_wins _ "7" _ H eq_refl).
Defined.

Lemma select_kraken_inputs_sorted_selection_witness :
  select_kraken_inputs scandir_runs ["runs"; "other"]%string ".krk" =
    (Ok tt, ["runs/a.krk"; "runs/b.krk"]%string) /\
  exists out,
    select_kraken_inputs scandir_runs ["runs"; "other"]%string ".krk" = (Ok tt, out) /\
    Sorted py_str_le out /\
    (forall x, In x out <->
       exists n, In n ["b.krk"; ".hidden.krk"; "a.krk"; "notes.txt"]%string /\
                 str_startswith n "." = false /\
                 str_endswith n ".krk" = true /\ x = entry_path "runs" n).
Proof.
  split; [vm_compute; reflexivity |].
  exact (select_kraken_inputs_sorted_selection scandir_runs "runs" ["other"] ".krk" _ eq_refl).
Defined.

Lemma select_kraken_inputs_order_independent_witness :
  Permutation ["b.krk"; ".hidden.krk"; "a.krk"; "notes.txt"]%string
              ["notes.txt"; "a.krk"; "b.krk"; ".hidden.krk"]%string /\
  select_kraken_inputs scandir_runs ["runs"]%string ".krk" =
    select_kraken_inputs scandir_runs' ["runs"; "x"]%string ".krk".
Proof.
  assert (Hp : Permutation ["b.krk"; ".hidden.krk"; "a.krk"; "notes.txt"]%string
                           ["notes.txt"; "a.krk"; "b.krk"; ".hidden.krk"]%string)
    by (apply (bool_decide_unpack _); vm_compute; reflexivity).
  split; [exact Hp |].
  exact (select_kraken_inputs_order_independent scandir_runs scandir_runs' "runs" [] ["x"]
           ".krk" _ _ eq_refl eq_refl Hp).
Defined.

